(** * FinLab documentation server: request dispatcher and document-query engine

    A shallow embedding of [workers/src/index.ts].

    - A JavaScript string is a [string]: a sequence of 8-bit code units (the
      UTF-8 bytes of the text).  [split], [includes], [join] and [slice] work
      on code units exactly as in the source, and [trim] and the white-space
      class of the heading pattern know the Unicode white space in its UTF-8
      encoding.  [Js.toLowerCase] lowers the ASCII letters; the search is also
      given over any lowering ([searchDocs_with]).
    - The document store [DOCS] comes from [./docs]: it is a parameter of every
      operation, given as the list [Object.entries(DOCS)] in iteration order.
      It is an ordinary object, so it inherits from [Object.prototype].
    - Values that reach the engine through an unchecked cast ([args.query as
      string] and the like) are [JsValue]s.  An operation that may raise a
      [TypeError] returns a [Completion]. *)

From Stdlib Require Import String Ascii List Bool Arith ZArith Lia DecimalString.
Import ListNotations.
Open Scope list_scope.
Open Scope string_scope.

(** ** Built-in string operations *)

Module Js.

(** [String.prototype.toLowerCase], on ASCII letters. *)
Definition lower_char (c : ascii) : ascii :=
  let n := nat_of_ascii c in
  if ((65 <=? n) && (n <=? 90))%nat then ascii_of_nat (n + 32) else c.

Fixpoint toLowerCase (s : string) : string :=
  match s with
  | EmptyString => EmptyString
  | String c s' => String (lower_char c) (toLowerCase s')
  end.

(** [s.startsWith(p)] *)
Fixpoint startsWith (p s : string) : bool :=
  match p, s with
  | EmptyString, _ => true
  | String _ _, EmptyString => false
  | String a p', String b s' => if Ascii.eqb a b then startsWith p' s' else false
  end.

(** [s.includes(sub)]: [sub] occurs in [s] at some position. *)
Fixpoint includes (s sub : string) : bool :=
  startsWith sub s ||
  match s with
  | EmptyString => false
  | String _ s' => includes s' sub
  end.

(** [s.split(sep)] for a non-empty separator: leftmost, non-overlapping
    occurrences of [sep] are cut out.  [skip] counts the code units of a
    separator that are still to be dropped. *)
Fixpoint split_from (sep s : string) (skip : nat) : list string :=
  match s with
  | EmptyString => [EmptyString]
  | String c s' =>
      match skip with
      | S k => split_from sep s' k
      | O =>
          if startsWith sep s
          then EmptyString :: split_from sep s' (String.length sep - 1)
          else match split_from sep s' 0 with
               | piece :: rest => String c piece :: rest
               | [] => [String c EmptyString]
               end
      end
  end.

(** With the empty separator [split] yields the code units one by one. *)
Fixpoint chars (s : string) : list string :=
  match s with
  | EmptyString => []
  | String c s' => String c EmptyString :: chars s'
  end.

Definition split (s sep : string) : list string :=
  match sep with
  | EmptyString => chars s
  | String _ _ => split_from sep s 0
  end.

(** [xs.join(sep)] *)
Definition join (xs : list string) (sep : string) : string :=
  String.concat sep xs.

(** [xs.slice(start, end)] for [0 <= start] and [0 <= end]. *)
Definition slice {A : Type} (xs : list A) (start stop : nat) : list A :=
  firstn (stop - start) (skipn start xs).

(** ASCII white space. *)
Definition is_space (c : ascii) : bool :=
  let n := nat_of_ascii c in
  ((n =? 32) || ((9 <=? n) && (n <=? 13)))%nat.

Definition bytes (codes : list nat) : string :=
  fold_right (fun n rest => String (ascii_of_nat n) rest) EmptyString codes.

(** White space and line terminators, as [trim] and the pattern class [\s]
    have them, each in its UTF-8 encoding: TAB, LF, VT, FF, CR, SP, then
    U+00A0, U+1680, U+2000 to U+200A, U+2028, U+2029, U+202F, U+205F, U+3000
    and U+FEFF. *)
Definition white_space : list string :=
  map (fun n => bytes [n]) [9; 10; 11; 12; 13; 32]
  ++ [bytes [194; 160]; bytes [225; 154; 128]]
  ++ map (fun n => bytes [226; 128; n])
         [128; 129; 130; 131; 132; 133; 134; 135; 136; 137; 138; 168; 169; 175]
  ++ [bytes [226; 129; 159]; bytes [227; 128; 128]; bytes [239; 187; 191]].

(** The length of the first of [seqs] that [s] starts with; 0 when there is
    none. *)
Fixpoint prefix_length (seqs : list string) (s : string) : nat :=
  match seqs with
  | [] => 0
  | q :: seqs' =>
      if startsWith q s then String.length q else prefix_length seqs' s
  end.

(** Drops the leading sequences of [seqs] from [s]; [skip] counts the code
    units of a sequence that are still to be dropped. *)
Fixpoint strip (seqs : list string) (s : string) (skip : nat) : string :=
  match s with
  | EmptyString => EmptyString
  | String c s' =>
      match skip with
      | S k => strip seqs s' k
      | O =>
          match prefix_length seqs s with
          | O => s
          | S k => strip seqs s' k
          end
      end
  end.

Fixpoint reverse (s : string) : string :=
  match s with
  | EmptyString => EmptyString
  | String c s' => reverse s' ++ String c EmptyString
  end.

Definition trimStart (s : string) : string := strip white_space s 0.

(** [trimEnd] is [trimStart] read from the right. *)
Definition trimEnd (s : string) : string :=
  reverse (strip (map reverse white_space) (reverse s) 0).

Definition trim (s : string) : string := trimEnd (trimStart s).

(** Decimal rendering of a non-negative integer, as in a template literal. *)
Definition number_toString (n : nat) : string :=
  NilEmpty.string_of_uint (Nat.to_uint n).

Definition newline : string := String (ascii_of_nat 10) EmptyString.

End Js.

(** ** Run-time values and completions *)

(** The values a property of a parsed JSON body can hold, and [undefined] for
    a property that is missing.  A number is given by the text that
    [ToString] yields for it ([0] and [-0] both read "0"); an object by its own
    properties. *)
Unset Elimination Schemes.

Inductive JsValue : Type :=
| JsUndefined
| JsNull
| JsBool (b : bool)
| JsString (s : string)
| JsNumber (shown : string)
| JsArray (items : list JsValue)
| JsObject (props : list (string * JsValue)).

Set Elimination Schemes.

Inductive JsError : Type :=
| TypeError.

Inductive Completion (A : Type) : Type :=
| Returns (a : A)
| Throws (e : JsError).

Arguments Returns {A} a.
Arguments Throws {A} e.

Definition bind {A B : Type} (m : Completion A) (k : A -> Completion B)
  : Completion B :=
  match m with
  | Returns a => k a
  | Throws e => Throws e
  end.

Notation "'do' x <- m ; k" := (bind m (fun x => k))
  (at level 10, x name, m at level 100, k at level 200).

(** [ToString], which also gives the property key of a value.  An array is
    joined with commas, [null] and [undefined] items reading as the empty
    string.  A parsed object reads "[object Object]", unless it has an own
    property [toString]: that property holds no function, [valueOf] yields no
    primitive either, and the conversion raises a [TypeError]. *)
Fixpoint ToString (v : JsValue) : Completion string :=
  match v with
  | JsUndefined => Returns "undefined"
  | JsNull => Returns "null"
  | JsBool true => Returns "true"
  | JsBool false => Returns "false"
  | JsString s => Returns s
  | JsNumber shown => Returns shown
  | JsArray items =>
      (fix join_items (items : list JsValue) : Completion string :=
         match items with
         | [] => Returns ""
         | x :: rest =>
             do first <-
               match x with
               | JsUndefined | JsNull => Returns ""
               | _ => ToString x
               end;
             match rest with
             | [] => Returns first
             | _ => do others <- join_items rest;
                    Returns (first ++ "," ++ others)
             end
         end) items
  | JsObject props =>
      if existsb (fun entry => String.eqb (fst entry) "toString") props
      then Throws TypeError
      else Returns "[object Object]"
  end.

(** [ToBoolean] *)
Definition truthy (v : JsValue) : bool :=
  match v with
  | JsUndefined | JsNull => false
  | JsBool b => b
  | JsString s => negb (String.eqb s "")
  | JsNumber shown => negb (String.eqb shown "0")
  | JsArray _ | JsObject _ => true
  end.

(** [v.toLowerCase()]: only a string has the method. *)
Definition call_toLowerCase (v : JsValue) : Completion string :=
  match v with
  | JsString s => Returns (Js.toLowerCase s)
  | _ => Throws TypeError
  end.

(** [v === 'literal'] *)
Definition strict_eq_string (v : JsValue) (lit : string) : bool :=
  match v with
  | JsString s => String.eqb s lit
  | _ => false
  end.

(** [xs.filter(p)] where the callback may throw. *)
Fixpoint filterM {A : Type} (p : A -> Completion bool) (xs : list A)
  : Completion (list A) :=
  match xs with
  | [] => Returns []
  | x :: xs' =>
      do b <- p x;
      do rest <- filterM p xs';
      Returns (if b then x :: rest else rest)
  end.

(** ** The document store *)

(** [Object.entries(DOCS)]: name and full text of each document, in iteration
    order. *)
Definition DocStore : Type := list (string * string).

(** [Object.keys(DOCS)] *)
Definition keys (DOCS : DocStore) : list string := map fst DOCS.

(** [key] is an own property of [DOCS], that is, the name of a document. *)
Definition has_key (DOCS : DocStore) (key : string) : bool :=
  existsb (fun entry => String.eqb (fst entry) key) DOCS.

(** The own property [key] of [DOCS]; [None] when there is none.  For a key
    that [Object.prototype] does not have, such as [factor-examples], this is
    [DOCS[key]], with [None] for [undefined]. *)
Definition get_key (DOCS : DocStore) (key : string) : option string :=
  option_map snd (find (fun entry => String.eqb (fst entry) key) DOCS).

(** ** Tool descriptors *)

Record SchemaProperty : Type := {
  prop_type : string;
  prop_description : string;
  prop_default : option string
}.

Record InputSchema : Type := {
  schema_type : string;
  properties : list (string * SchemaProperty);
  required : option (list string)
}.

Record Tool : Type := {
  tool_name : string;
  tool_description : string;
  inputSchema : InputSchema
}.

Definition TOOLS (DOCS : DocStore) : list Tool :=
  [ {| tool_name := "list_documents";
       tool_description := "List all available FinLab documentation files";
       inputSchema := {| schema_type := "object"; properties := [];
                         required := None |} |};
    {| tool_name := "get_document";
       tool_description := "Get the full content of a FinLab documentation file";
       inputSchema :=
         {| schema_type := "object";
            properties :=
              [("doc_name",
                {| prop_type := "string";
                   prop_description :=
                     "Name of the document (without .md extension). Available: "
                     ++ Js.join (keys DOCS) ", ";
                   prop_default := None |})];
            required := Some ["doc_name"] |} |};
    {| tool_name := "search_finlab_docs";
       tool_description :=
         "Search for a keyword or phrase in all FinLab documentation";
       inputSchema :=
         {| schema_type := "object";
            properties :=
              [("query",
                {| prop_type := "string";
                   prop_description :=
                     "The search term to look for (case-insensitive)";
                   prop_default := None |})];
            required := Some ["query"] |} |};
    {| tool_name := "get_factor_examples";
       tool_description := "Get factor/strategy examples from the documentation";
       inputSchema :=
         {| schema_type := "object";
            properties :=
              [("factor_type",
                {| prop_type := "string";
                   prop_description :=
                     "Type of factor: all, value, momentum, technical, quality, ml";
                   prop_default := Some "all" |})];
            required := None |} |} ].

(** ** Tool implementations *)

Abbreviation nl := Js.newline.

(** [l.replace(/^#+\s*/, '')]: a leading run of [#] and the white space after
    it are removed; a line that does not start with [#] is left as it is. *)
Fixpoint drop_hashes (s : string) : string :=
  match s with
  | String "#" s' => drop_hashes s'
  | _ => s
  end.

Definition strip_heading (l : string) : string :=
  match l with
  | String "#" _ => Js.trimStart (drop_hashes l)
  | _ => l
  end.

Definition nonblank (l : string) : bool := negb (String.eqb (Js.trim l) "").

Definition firstLine (content : string) : string :=
  match find nonblank (Js.split content nl) with
  | Some l => Js.trim (strip_heading l)
  | None => ""
  end.

Definition listDocuments (DOCS : DocStore) : string :=
  let docs :=
    map (fun entry : string * string =>
           let (name, content) := entry in
           "- **" ++ name ++ "**: " ++ firstLine content) DOCS in
  "## Available FinLab Documents" ++ nl ++ nl ++ Js.join docs nl.

(** What a tool call hands back: a text, or, where a name is looked up in
    [DOCS] with the prototype chain in play, the property of
    [Object.prototype] of that name, which is a function or an object and no
    text. *)
Inductive Output : Type :=
| Text (s : string)
| Inherited (key : string).

Coercion Text : string >-> Output.

(** The property names of [Object.prototype], which every object literal
    inherits. *)
Definition Object_prototype : list string :=
  ["constructor"; "__defineGetter__"; "__defineSetter__"; "hasOwnProperty";
   "__lookupGetter__"; "__lookupSetter__"; "isPrototypeOf";
   "propertyIsEnumerable"; "toString"; "valueOf"; "__proto__";
   "toLocaleString"].

Definition is_inherited (key : string) : bool :=
  existsb (String.eqb key) Object_prototype.

(** [key in DOCS]: an own property or an inherited one. *)
Definition in_DOCS (DOCS : DocStore) (key : string) : bool :=
  has_key DOCS key || is_inherited key.

(** [DOCS[key]] with the prototype chain: the own property hides the
    inherited one. *)
Definition get_DOCS (DOCS : DocStore) (key : string) : option Output :=
  match get_key DOCS key with
  | Some content => Some (Text content)
  | None => if is_inherited key then Some (Inherited key) else None
  end.

Definition getDocument (DOCS : DocStore) (docName : JsValue)
  : Completion Output :=
  do key <- ToString docName;
  match (if in_DOCS DOCS key then get_DOCS DOCS key else None) with
  | Some value => Returns value
  | None =>
      Returns
        (Text ("Document '" ++ key ++ "' not found." ++ nl ++ nl
               ++ "Available documents: " ++ Js.join (keys DOCS) ", "))
  end.

(** An element of [results] in [searchDocs]. *)
Record SearchResult : Type := {
  file : string;
  line : nat;
  matched : string
}.

(** The inner loop of [searchDocs] from index [i] on; [todo] holds
    [lines[i]], [lines[i+1]], ... *)
Fixpoint scan_lines (name : string) (lines : list string) (queryLower : string)
    (todo : list string) (i : nat) : list SearchResult :=
  match todo with
  | [] => []
  | l :: todo' =>
      let later := scan_lines name lines queryLower todo' (S i) in
      if Js.includes (Js.toLowerCase l) queryLower then
        let start := Z.max 0 (Z.of_nat i - 2) in
        let stop := Z.min (Z.of_nat (List.length lines)) (Z.of_nat i + 6) in
        {| file := name;
           line := i + 1;
           matched := Js.join (Js.slice lines (Z.to_nat start) (Z.to_nat stop)) nl |}
        :: later
      else later
  end.

(** The outer loop: the array [results] once every document has been visited. *)
Definition collect (DOCS : DocStore) (queryLower : string) : list SearchResult :=
  fold_left
    (fun results (entry : string * string) =>
       let (name, content) := entry in
       if negb (Js.includes (Js.toLowerCase content) queryLower) then results
       else
         let lines := Js.split content nl in
         (results ++ scan_lines name lines queryLower lines 0)%list)
    DOCS [].

Definition render_hit (r : SearchResult) : string :=
  "### " ++ file r ++ " (line " ++ Js.number_toString (line r) ++ ")" ++ nl
  ++ "```" ++ nl ++ matched r ++ nl ++ "```" ++ nl ++ nl.

Definition no_results (query : string) : string :=
  "No results found for '" ++ query ++ "'".

Definition results_header (query : string) : string :=
  "## Search Results: " ++ query ++ nl ++ nl.

Definition render (query : string) (results : list SearchResult) : string :=
  match results with
  | [] => no_results query
  | _ =>
      fold_left (fun output r => output ++ render_hit r)
        (Js.slice results 0 10)
        (results_header query)
  end.

Definition searchDocs (DOCS : DocStore) (query : JsValue) : Completion string :=
  do queryLower <- call_toLowerCase query;
  do shown <- ToString query;
  Returns (render shown (collect DOCS queryLower)).

(** The array [results] when the loops of [searchDocs] are done. *)
Definition searchHits (DOCS : DocStore) (query : JsValue)
  : Completion (list SearchResult) :=
  do queryLower <- call_toLowerCase query;
  Returns (collect DOCS queryLower).

(** *** Search over any lowering

    [searchDocs] reads [String.prototype.toLowerCase] at three places: on the
    query, on the text of a document and on each line.  Here the built-in is
    a parameter, [lower], so that what is proved holds of the Unicode function
    of the runtime as well as of [Js.toLowerCase]. *)

Section SearchWith.

Variable lower : string -> string.

Definition call_lower (v : JsValue) : Completion string :=
  match v with
  | JsString s => Returns (lower s)
  | _ => Throws TypeError
  end.

Fixpoint scan_lines_with (name : string) (lines : list string)
    (queryLower : string) (todo : list string) (i : nat) : list SearchResult :=
  match todo with
  | [] => []
  | l :: todo' =>
      let later := scan_lines_with name lines queryLower todo' (S i) in
      if Js.includes (lower l) queryLower then
        let start := Z.max 0 (Z.of_nat i - 2) in
        let stop := Z.min (Z.of_nat (List.length lines)) (Z.of_nat i + 6) in
        {| file := name;
           line := i + 1;
           matched := Js.join (Js.slice lines (Z.to_nat start) (Z.to_nat stop)) nl |}
        :: later
      else later
  end.

Definition collect_with (DOCS : DocStore) (queryLower : string)
  : list SearchResult :=
  fold_left
    (fun results (entry : string * string) =>
       let (name, content) := entry in
       if negb (Js.includes (lower content) queryLower) then results
       else
         let lines := Js.split content nl in
         (results ++ scan_lines_with name lines queryLower lines 0)%list)
    DOCS [].

Definition searchDocs_with (DOCS : DocStore) (query : JsValue)
  : Completion string :=
  do queryLower <- call_lower query;
  do shown <- ToString query;
  Returns (render shown (collect_with DOCS queryLower)).

Definition searchHits_with (DOCS : DocStore) (query : JsValue)
  : Completion (list SearchResult) :=
  do queryLower <- call_lower query;
  Returns (collect_with DOCS queryLower).

End SearchWith.

Definition factor_not_found : string := "factor-examples not found".

Definition factor_guidance (factorType : string) : string :=
  "No examples found for factor type '" ++ factorType
  ++ "'. Try: value, momentum, technical, quality, ml".

Definition getFactorExamples (DOCS : DocStore) (factorType : JsValue)
  : Completion string :=
  let factorType :=
    match factorType with JsUndefined => JsString "all" | v => v end in
  match get_key DOCS "factor-examples" with
  | None | Some EmptyString => Returns factor_not_found
  | Some content =>
      if strict_eq_string factorType "all" then Returns content
      else
        let sections := Js.split content (nl ++ "## ") in
        do matching <-
          filterM (fun s =>
                     do wanted <- call_toLowerCase factorType;
                     Returns (Js.includes (Js.toLowerCase s) wanted))
                  sections;
        match matching with
        | [] => do shown <- ToString factorType;
                Returns (factor_guidance shown)
        | _ => Returns (Js.join (map (fun s => "## " ++ s) matching) (nl ++ nl))
        end
  end.

(** The argument object of a tool call; a property that is not listed reads as
    [undefined]. *)
Definition Args : Type := list (string * JsValue).

Definition arg (args : Args) (key : string) : JsValue :=
  match find (fun entry => String.eqb (fst entry) key) args with
  | Some entry => snd entry
  | None => JsUndefined
  end.

Definition handleToolCall (DOCS : DocStore) (name : JsValue) (args : Args)
  : Completion Output :=
  if strict_eq_string name "list_documents" then
    Returns (Text (listDocuments DOCS))
  else if strict_eq_string name "get_document" then
    getDocument DOCS (arg args "doc_name")
  else if strict_eq_string name "search_finlab_docs" then
    do report <- searchDocs DOCS (arg args "query");
    Returns (Text report)
  else if strict_eq_string name "get_factor_examples" then
    let factor_type := arg args "factor_type" in
    do examples <-
      getFactorExamples DOCS
        (if truthy factor_type then factor_type else JsString "all");
    Returns (Text examples)
  else
    do shown <- ToString name;
    Returns (Text ("Unknown tool: " ++ shown)).

(** ** Request dispatcher *)

(** The correlation identifier: [string | number]. *)
Inductive RequestId : Type :=
| IdString (s : string)
| IdNumber (n : Z).

(** The two properties of [params] that the dispatcher reads.  [arguments] is
    [None] when the property is missing or holds no object: every argument
    then reads as [undefined], as it does on the substitute [{}]. *)
Record Params : Type := {
  name : JsValue;
  arguments : option Args
}.

Record McpRequest : Type := {
  req_jsonrpc : string;
  req_id : RequestId;
  method : string;
  params : option Params
}.

Record ServerInfo : Type := {
  server_name : string;
  server_version : string
}.

Record ContentItem : Type := {
  content_type : string;
  text : Output
}.

(** The three shapes of [result].  [capabilities] lists the names of the
    declared capabilities; each is declared with an empty object. *)
Inductive McpResult : Type :=
| InitializeResult (protocolVersion : string) (serverInfo : ServerInfo)
    (capabilities : list string)
| ToolsListResult (tools : list Tool)
| ToolCallResult (content : list ContentItem).

Record McpError : Type := {
  code : Z;
  message : string
}.

Record McpResponse : Type := {
  jsonrpc : string;
  id : RequestId;
  result : option McpResult;
  error : option McpError
}.

Definition handleMcpRequest (DOCS : DocStore) (request : McpRequest)
  : Completion McpResponse :=
  let id := req_id request in
  let method := method request in
  let params := params request in
  if String.eqb method "initialize" then
    Returns
      {| jsonrpc := "2.0";
         id := id;
         result :=
           Some (InitializeResult "2024-11-05"
                   {| server_name := "finlab-docs"; server_version := "1.0.0" |}
                   ["tools"]);
         error := None |}
  else if String.eqb method "tools/list" then
    Returns
      {| jsonrpc := "2.0";
         id := id;
         result := Some (ToolsListResult (TOOLS DOCS));
         error := None |}
  else if String.eqb method "tools/call" then
    match params with
    | None => Throws TypeError
    | Some p =>
        let toolName := name p in
        let toolArgs :=
          match arguments p with Some a => a | None => [] end in
        do content <- handleToolCall DOCS toolName toolArgs;
        Returns
          {| jsonrpc := "2.0";
             id := id;
             result :=
               Some (ToolCallResult [ {| content_type := "text"; text := content |} ]);
             error := None |}
    end
  else
    Returns
      {| jsonrpc := "2.0";
         id := id;
         result := None;
         error :=
           Some {| code := (-32601)%Z;
                   message := "Method not found: " ++ method |} |}.

(** ** Transport *)

(** What [fetch] reads of an HTTP request: the path of its URL, its method,
    and the outcome of [request.json()], which is [None] when the promise is
    rejected (the body is no JSON text) and the request envelope otherwise. *)
Record HttpRequest : Type := {
  pathname : string;
  http_method : string;
  json : option McpRequest
}.

(** The value a response body is built from: [null], a text, or the object
    given to [JSON.stringify]. *)
Inductive HttpBody : Type :=
| BodyNull
| BodyText (s : string)
| BodyHealth (status server : string)
| BodyEnvelope (response : McpResponse)
| BodyErrorNullId (version : string) (failure : McpError).

(** The status (200 when the code gives none), the headers and the body.
    The headers are those the code sets, under the names it writes, and the
    content type that a text body brings with it when the code sets none. *)
Record HttpResponse : Type := {
  http_status : nat;
  http_headers : list (string * string);
  http_body : HttpBody
}.

Definition parse_error_response : HttpResponse :=
  {| http_status := 400;
     http_headers := [("Content-Type", "application/json")];
     http_body :=
       BodyErrorNullId "2.0" {| code := (-32700)%Z; message := "Parse error" |} |}.

Definition fetch (DOCS : DocStore) (request : HttpRequest) : HttpResponse :=
  if String.eqb (pathname request) "/health" || String.eqb (pathname request) "/"
  then
    {| http_status := 200;
       http_headers := [("Content-Type", "application/json")];
       http_body := BodyHealth "ok" "finlab-mcp" |}
  else if String.eqb (pathname request) "/mcp"
          || String.eqb (pathname request) "/sse"
  then
    if negb (String.eqb (http_method request) "POST") then
      {| http_status := 405;
         http_headers := [("content-type", "text/plain;charset=UTF-8")];
         http_body := BodyText "Method not allowed" |}
    else
      (* try { ... } catch (e) { ... } *)
      match json request with
      | None => parse_error_response
      | Some body =>
          match handleMcpRequest DOCS body with
          | Returns response =>
              {| http_status := 200;
                 http_headers := [("Content-Type", "application/json");
                                  ("Access-Control-Allow-Origin", "*")];
                 http_body := BodyEnvelope response |}
          | Throws _ => parse_error_response
          end
      end
  else if String.eqb (http_method request) "OPTIONS" then
    {| http_status := 200;
       http_headers := [("Access-Control-Allow-Origin", "*");
                        ("Access-Control-Allow-Methods", "GET, POST, OPTIONS");
                        ("Access-Control-Allow-Headers", "Content-Type")];
       http_body := BodyNull |}
  else
    {| http_status := 404;
       http_headers := [("content-type", "text/plain;charset=UTF-8")];
       http_body := BodyText "Not found" |}.

(** ** Notions used to state the properties *)

(** Occurrence of a code unit in a string. *)
Fixpoint occurs (c : ascii) (s : string) : Prop :=
  match s with
  | EmptyString => False
  | String x s' => x = c \/ occurs c s'
  end.

(** The context window of the match at 0-based line [i]: the lines with index
    in [[max(0, i-2), min(len, i+6))]. *)
Definition context_window (lines : list string) (i : nat) : list string :=
  Js.slice lines (Nat.max 0 (i - 2)) (Nat.min (List.length lines) (i + 6)).

Definition hit_at (name : string) (lines : list string) (i : nat) : SearchResult :=
  {| file := name; line := i + 1; matched := Js.join (context_window lines i) nl |}.

(** The 0-based indices of the lines that contain the lowercased query, in
    increasing order. *)
Definition matching_lines (lines : list string) (queryLower : string) : list nat :=
  filter (fun i => Js.includes (Js.toLowerCase (nth i lines "")) queryLower)
         (seq 0 (List.length lines)).

Definition document_hits (queryLower : string) (entry : string * string)
  : list SearchResult :=
  let (name, content) := entry in
  let lines := Js.split content nl in
  map (hit_at name lines) (matching_lines lines queryLower).

(** The parts of a report, one after the other. *)
Definition concat_all (parts : list string) : string :=
  fold_right append "" parts.

(** [typeof v === 'string'] *)
Definition is_string (v : JsValue) : bool :=
  match v with
  | JsString _ => true
  | _ => false
  end.

(** The envelope of a tool call that produced [content]. *)
Definition text_envelope (id : RequestId) (content : Output) : McpResponse :=
  {| jsonrpc := "2.0";
     id := id;
     result := Some (ToolCallResult [ {| content_type := "text"; text := content |} ]);
     error := None |}.

(** A [tools/call] request for the tool [toolName]. *)
Definition tool_call (id : RequestId) (toolName : JsValue) (args : option Args)
  : McpRequest :=
  {| req_jsonrpc := "2.0";
     req_id := id;
     method := "tools/call";
     params := Some {| name := toolName; arguments := args |} |}.

(** Exactly one of [result] and [error] is present. *)
Definition result_xor_error (response : McpResponse) : Prop :=
  (result response <> None /\ error response = None)
  \/ (result response = None /\ error response <> None).

(** The methods the dispatcher knows. *)
Definition known_method (m : string) : Prop :=
  m = "initialize" \/ m = "tools/list" \/ m = "tools/call".

(** The first and the last code unit of a string. *)
Definition first_char (s : string) : option ascii :=
  match s with
  | EmptyString => None
  | String c _ => Some c
  end.

Fixpoint last_char (s : string) : option ascii :=
  match s with
  | EmptyString => None
  | String c EmptyString => Some c
  | String _ s' => last_char s'
  end.

(** The line of [listDocuments] for one document. *)
Definition bullet (entry : string * string) : string :=
  "- **" ++ fst entry ++ "**: " ++ firstLine (snd entry).

(** The argument object fits a tool's input schema: every required property
    is a string, and every declared property of type [string] is a string or
    is missing. *)
Definition conforms (schema : InputSchema) (args : Args) : bool :=
  forallb (fun key => is_string (arg args key))
          (match required schema with Some keys => keys | None => [] end)
  && forallb (fun declared : string * SchemaProperty =>
                if String.eqb (prop_type (snd declared)) "string" then
                  match arg args (fst declared) with
                  | JsUndefined => true
                  | v => is_string v
                  end
                else true)
             (properties schema).

(** The paths [fetch] serves. *)
Definition mcp_path (path : string) : Prop := path = "/mcp" \/ path = "/sse".

Definition health_path (path : string) : Prop := path = "/health" \/ path = "/".

(** * Properties *)

(** ** Strings *)

Section StringFacts.

Lemma append_empty_r (s : string) : s ++ "" = s.
Proof. induction s as [|c s IH]; simpl; congruence. Qed.

Lemma append_assoc (a b c : string) : (a ++ b) ++ c = a ++ b ++ c.
Proof. induction a as [|x a IH]; simpl; congruence. Qed.

Lemma toLowerCase_append (a b : string) :
  Js.toLowerCase (a ++ b) = Js.toLowerCase a ++ Js.toLowerCase b.
Proof. induction a as [|x a IH]; simpl; congruence. Qed.

Lemma startsWith_spec (p s : string) :
  Js.startsWith p s = true <-> exists post, s = p ++ post.
Proof.
  revert s; induction p as [|a p IH]; intros s; simpl.
  - split; [intros _; now exists s | reflexivity].
  - destruct s as [|b s].
    + split; [discriminate | intros [post H]; discriminate].
    + destruct (Ascii.eqb_spec a b) as [->|Hab].
      * rewrite IH. split; intros [post H]; exists post.
        -- now rewrite H.
        -- now injection H.
      * split; [discriminate | intros [post H]; injection H; intros; congruence].
Qed.

Lemma startsWith_empty (s : string) : Js.startsWith "" s = true.
Proof. now destruct s. Qed.

(** [includes] is the substring relation. *)
Lemma includes_spec (s sub : string) :
  Js.includes s sub = true <-> exists pre post, s = pre ++ sub ++ post.
Proof.
  induction s as [|c s IH]; simpl.
  - rewrite orb_false_r, startsWith_spec. split.
    + intros [post H]. now exists "", post.
    + intros [pre [post H]]. destruct pre; [now exists post | discriminate].
  - rewrite orb_true_iff, startsWith_spec, IH. split.
    + intros [[post H] | [pre [post H]]].
      * now exists "", post.
      * exists (String c pre), post. simpl. now rewrite H.
    + intros [pre [post H]]. destruct pre as [|x pre]; simpl in H.
      * left. now exists post.
      * right. injection H as _ H. now exists pre, post.
Qed.


(** A substring of a substring is a substring. *)
Lemma includes_within (s pre mid post sub : string) :
  s = pre ++ mid ++ post -> Js.includes mid sub = true -> Js.includes s sub = true.
Proof.
  intros -> H. apply includes_spec in H as [a [b ->]].
  apply includes_spec. exists (pre ++ a), (b ++ post).
  now rewrite !append_assoc.
Qed.

End StringFacts.

Section Newlines.

Let LF : ascii := ascii_of_nat 10.

Lemma occurs_append (c : ascii) (a b : string) :
  occurs c (a ++ b) <-> occurs c a \/ occurs c b.
Proof. induction a as [|x a IH]; simpl; tauto. Qed.

Lemma lower_char_LF (c : ascii) : Js.lower_char c = LF <-> c = LF.
Proof.
  destruct c as [[] [] [] [] [] [] [] []]; vm_compute; split; congruence.
Qed.

Lemma occurs_LF_toLowerCase (s : string) :
  occurs LF (Js.toLowerCase s) <-> occurs LF s.
Proof.
  induction s as [|x s IH]; simpl; [tauto|]. now rewrite lower_char_LF, IH.
Qed.

Lemma includes_occurs (c : ascii) (s sub : string) :
  Js.includes s sub = true -> occurs c sub -> occurs c s.
Proof.
  intros H Hc. apply includes_spec in H as [pre [post ->]].
  rewrite !occurs_append. tauto.
Qed.

(** Splitting on the newline leaves no newline in any piece. *)
Lemma split_lines_no_LF (s l : string) :
  In l (Js.split s nl) -> ~ occurs LF l.
Proof.
  unfold Js.split, nl, Js.newline. fold LF. revert l.
  induction s as [|c s IH]; intros l; cbn [Js.split_from].
  - intros [<-|[]]. simpl. tauto.
  - cbn [Js.startsWith String.length Nat.sub].
    destruct (Ascii.eqb_spec LF c) as [<-|Hc].
    + intros [<-|H]; [simpl; tauto | now apply IH].
    + destruct (Js.split_from (String LF "") s 0) as [|piece rest] eqn:E.
      * intros [<-|[]]. simpl. intros [H|[]]. congruence.
      * intros [<-|H].
        -- simpl. intros [H|H]; [congruence|]. apply (IH piece); [now left | exact H].
        -- apply IH. now right.
Qed.

End Newlines.

(** Each piece of a split is a substring of the text. *)
Section SplitPieces.

Variable sep : string.

Lemma split_from_nonempty (s : string) (k : nat) : Js.split_from sep s k <> [].
Proof.
  revert k; induction s as [|c s IH]; intros k; simpl; [discriminate|].
  destruct k; [|apply IH].
  destruct (Js.startsWith sep (String c s)); [discriminate|].
  destruct (Js.split_from sep s 0); discriminate.
Qed.

Lemma split_from_head_prefix (s piece : string) (rest : list string) :
  Js.split_from sep s 0 = piece :: rest -> exists post, s = piece ++ post.
Proof.
  revert piece rest; induction s as [|c s IH]; intros piece rest; simpl.
  - intros [= <- <-]. now exists "".
  - destruct (Js.startsWith sep (String c s)).
    + intros [= <- _]. now exists (String c s).
    + destruct (Js.split_from sep s 0) as [|p r] eqn:E.
      * intros [= <- _]. exists s. reflexivity.
      * intros [= <- _]. destruct (IH p r eq_refl) as [post ->].
        now exists post.
Qed.

Lemma split_from_piece (s l : string) (k : nat) :
  In l (Js.split_from sep s k) -> exists pre post, s = pre ++ l ++ post.
Proof.
  revert k l; induction s as [|c s IH]; intros k l; simpl.
  - intros [<-|[]]. now exists "", "".
  - assert (Hlift : forall k', In l (Js.split_from sep s k') ->
                      exists pre post, String c s = pre ++ l ++ post).
    { intros k' H. destruct (IH _ _ H) as [pre [post ->]].
      now exists (String c pre), post. }
    destruct k as [|k]; [|apply Hlift].
    destruct (Js.startsWith sep (String c s)).
    + intros [<-|H]; [now exists "", (String c s) | now apply (Hlift _ H)].
    + destruct (Js.split_from sep s 0) as [|p r] eqn:E.
      * intros [<-|[]]. exists "", s. reflexivity.
      * intros [<-|H].
        -- destruct (split_from_head_prefix _ _ _ E) as [post ->].
           now exists "", post.
        -- apply (Hlift 0). rewrite E. now right.
Qed.

End SplitPieces.

Lemma split_lines_piece (s l : string) :
  In l (Js.split s nl) -> exists pre post, s = pre ++ l ++ post.
Proof. apply split_from_piece. Qed.


(** The document-level test of [searchDocs] never hides a matching line. *)
Lemma line_match_in_document (content l queryLower : string) :
  In l (Js.split content nl) ->
  Js.includes (Js.toLowerCase l) queryLower = true ->
  Js.includes (Js.toLowerCase content) queryLower = true.
Proof.
  intros Hl Hm. destruct (split_lines_piece _ _ Hl) as [pre [post ->]].
  eapply includes_within; [|exact Hm].
  now rewrite !toLowerCase_append.
Qed.

(** ** The hits of a search *)

Section Scan.

Variables (name : string) (lines : list string) (queryLower : string).

Lemma scan_lines_spec (todo : list string) (i : nat) :
  scan_lines name lines queryLower todo i =
  map (hit_at name lines)
      (filter (fun j => Js.includes (Js.toLowerCase (nth (j - i) todo "")) queryLower)
              (seq i (List.length todo))).
Proof.
  revert i; induction todo as [|l todo IH]; intros i; [reflexivity|].
  cbn [scan_lines List.length seq filter]. rewrite Nat.sub_diag. cbn [nth].
  assert (Hrest :
    filter (fun j => Js.includes (Js.toLowerCase (nth (j - i) (l :: todo) "")) queryLower)
           (seq (S i) (List.length todo)) =
    filter (fun j => Js.includes (Js.toLowerCase (nth (j - S i) todo "")) queryLower)
           (seq (S i) (List.length todo))).
  { apply filter_ext_in. intros j Hj. apply in_seq in Hj.
    replace (j - i) with (S (j - S i)) by lia. reflexivity. }
  cbn [nth] in Hrest. rewrite Hrest, IH.
  destruct (Js.includes (Js.toLowerCase l) queryLower); [|reflexivity].
  cbn [map]. f_equal. unfold hit_at, context_window. f_equal. f_equal. f_equal; lia.
Qed.

Lemma scan_all_lines :
  scan_lines name lines queryLower lines 0 =
  map (hit_at name lines) (matching_lines lines queryLower).
Proof.
  rewrite scan_lines_spec. unfold matching_lines. f_equal.
  apply filter_ext. intros j. now rewrite Nat.sub_0_r.
Qed.

End Scan.

Lemma matching_lines_none (content queryLower : string) :
  Js.includes (Js.toLowerCase content) queryLower = false ->
  matching_lines (Js.split content nl) queryLower = [].
Proof.
  intros Hdoc. unfold matching_lines.
  set (lines := Js.split content nl).
  assert (Hall : forall i, In i (seq 0 (List.length lines)) ->
            Js.includes (Js.toLowerCase (nth i lines "")) queryLower = false).
  { intros i Hi. apply in_seq in Hi.
    destruct (Js.includes (Js.toLowerCase (nth i lines "")) queryLower) eqn:E;
      [|reflexivity].
    rewrite <- Hdoc. symmetry.
    apply (line_match_in_document content (nth i lines "")); [|exact E].
    apply nth_In. fold lines. lia. }
  induction (seq 0 (List.length lines)) as [|j js IH]; [reflexivity|].
  simpl. rewrite Hall by now left. apply IH. intros i Hi. apply Hall. now right.
Qed.

(** [results] holds, document by document in iteration order, one hit for each
    matching line in line order. *)
Lemma collect_spec (DOCS : DocStore) (queryLower : string) :
  collect DOCS queryLower = flat_map (document_hits queryLower) DOCS.
Proof.
  unfold collect.
  enough (H : forall acc,
    fold_left
      (fun results (entry : string * string) =>
         let (name, content) := entry in
         if negb (Js.includes (Js.toLowerCase content) queryLower) then results
         else
           let lines := Js.split content nl in
           (results ++ scan_lines name lines queryLower lines 0)%list)
      DOCS acc
    = (acc ++ flat_map (document_hits queryLower) DOCS)%list) by apply (H []).
  induction DOCS as [|[name content] DOCS IH]; intros acc;
    cbn [fold_left flat_map document_hits].
  - now rewrite app_nil_r.
  - rewrite IH.
    destruct (Js.includes (Js.toLowerCase content) queryLower) eqn:E;
      cbn [negb].
    + now rewrite scan_all_lines, app_assoc.
    + now rewrite matching_lines_none.
Qed.

(** *** Slices *)

Section Slices.

Context {A : Type}.

Lemma firstn_plus (m n : nat) (xs : list A) :
  firstn (m + n) xs = (firstn m xs ++ firstn n (skipn m xs))%list.
Proof.
  revert xs; induction m as [|m IH]; intros xs; [reflexivity|].
  destruct xs as [|x xs]; simpl.
  - now rewrite firstn_nil.
  - now rewrite IH.
Qed.

Lemma slice_cut (xs : list A) (a b c : nat) :
  a <= b -> b <= c ->
  Js.slice xs a c = (Js.slice xs a b ++ Js.slice xs b c)%list.
Proof.
  intros Hab Hbc. unfold Js.slice.
  replace (c - a) with ((b - a) + (c - b)) by lia.
  rewrite firstn_plus, skipn_skipn.
  now replace (b - a + a) with b by lia.
Qed.

Lemma slice_clip (xs : list A) (a c : nat) :
  Js.slice xs a (Nat.min (List.length xs) c) = Js.slice xs a c.
Proof.
  unfold Js.slice.
  destruct (Nat.le_gt_cases c (List.length xs)) as [Hle|Hgt].
  - now replace (Nat.min (List.length xs) c) with c by lia.
  - replace (Nat.min (List.length xs) c) with (List.length xs) by lia.
    rewrite !firstn_all2; [reflexivity| |]; rewrite length_skipn; lia.
Qed.

Lemma slice_one (xs : list A) (i : nat) (x : A) :
  nth_error xs i = Some x -> Js.slice xs i (i + 1) = [x].
Proof.
  unfold Js.slice. replace (i + 1 - i) with 1 by lia.
  revert i; induction xs as [|y xs IH]; intros [|i]; simpl; try discriminate.
  - now intros [= ->].
  - apply IH.
Qed.

Lemma slice_length (xs : list A) (a c : nat) :
  List.length (Js.slice xs a c) = Nat.min (c - a) (List.length xs - a).
Proof. unfold Js.slice. now rewrite length_firstn, length_skipn. Qed.

End Slices.

(** The window is the match line with the two lines before it and the five
    lines after it, as far as the document has them. *)
Lemma context_window_parts (lines : list string) (i : nat) (l : string) :
  nth_error lines i = Some l ->
  context_window lines i =
    (Js.slice lines (i - 2) i ++ l :: Js.slice lines (i + 1) (i + 6))%list
  /\ List.length (Js.slice lines (i - 2) i) = Nat.min i 2
  /\ List.length (Js.slice lines (i + 1) (i + 6)) = Nat.min (List.length lines - (i + 1)) 5.
Proof.
  intros Hl.
  assert (Hi : i < List.length lines) by (apply nth_error_Some; congruence).
  unfold context_window. repeat split.
  - rewrite slice_clip. replace (Nat.max 0 (i - 2)) with (i - 2) by lia.
    rewrite (slice_cut lines (i - 2) i (i + 6)) by lia.
    rewrite (slice_cut lines i (i + 1) (i + 6)) by lia.
    now rewrite (slice_one lines i l Hl).
  - rewrite slice_length. lia.
  - rewrite slice_length. lia.
Qed.

(** ** The rendered report *)

Lemma render_fold (rs : list SearchResult) (init : string) :
  fold_left (fun output r => output ++ render_hit r) rs init
  = init ++ concat_all (map render_hit rs).
Proof.
  revert init; induction rs as [|r rs IH]; intros init; simpl.
  - now rewrite append_empty_r.
  - now rewrite IH, append_assoc.
Qed.

Lemma render_spec (query : string) (results : list SearchResult) :
  render query results =
  match results with
  | [] => no_results query
  | _ => results_header query ++ concat_all (map render_hit (firstn 10 results))
  end.
Proof.
  destruct results as [|r rs]; [reflexivity|].
  unfold render. rewrite render_fold. reflexivity.
Qed.

Lemma render_no_results (query : string) (results : list SearchResult) :
  render query results = no_results query <-> results = [].
Proof.
  split; [|now intros ->].
  destruct results as [|r rs]; [reflexivity|].
  rewrite render_spec. discriminate.
Qed.

Lemma flat_map_nil {A B : Type} (f : A -> list B) (xs : list A) :
  flat_map f xs = [] <-> forall x, In x xs -> f x = [].
Proof.
  induction xs as [|x xs IH]; simpl.
  - split; [intros _ y [] | reflexivity].
  - split.
    + intros H. apply app_eq_nil in H as [Hx Hxs].
      intros y [<-|Hy]; [exact Hx | now apply IH].
    + intros H. rewrite (H x) by now left. apply IH. intros y Hy. apply H. now right.
Qed.

Lemma filter_nil {A : Type} (p : A -> bool) (xs : list A) :
  filter p xs = [] <-> forall x, In x xs -> p x = false.
Proof.
  induction xs as [|x xs IH]; simpl.
  - split; [intros _ y [] | reflexivity].
  - destruct (p x) eqn:E; split.
    + discriminate.
    + intros H. specialize (H x (or_introl eq_refl)). congruence.
    + intros H y [<-|Hy]; [exact E | now apply IH].
    + intros H. apply IH. intros y Hy. apply H. now right.
Qed.

(** No line of the document contains the lowercased query. *)
Lemma matching_lines_nil (lines : list string) (queryLower : string) :
  matching_lines lines queryLower = [] <->
  forall l, In l lines -> Js.includes (Js.toLowerCase l) queryLower = false.
Proof.
  unfold matching_lines. rewrite filter_nil. split.
  - intros H l Hl. destruct (In_nth _ _ "" Hl) as [i [Hi <-]].
    apply H, in_seq. lia.
  - intros H i Hi. apply in_seq in Hi. apply H, nth_In. lia.
Qed.

Lemma collect_nil (DOCS : DocStore) (queryLower : string) :
  collect DOCS queryLower = [] <->
  forall name content l,
    In (name, content) DOCS -> In l (Js.split content nl) ->
    Js.includes (Js.toLowerCase l) queryLower = false.
Proof.
  rewrite collect_spec, flat_map_nil. split.
  - intros H name content l Hdoc. specialize (H _ Hdoc). cbn [document_hits] in H.
    apply map_eq_nil in H. now apply matching_lines_nil.
  - intros H [name content] Hdoc. cbn [document_hits].
    replace (matching_lines (Js.split content nl) queryLower) with (@nil nat);
      [reflexivity|].
    symmetry. apply matching_lines_nil. intros l. now apply (H name content).
Qed.

Lemma searchDocs_string (DOCS : DocStore) (query : string) :
  searchDocs DOCS (JsString query)
  = Returns (render query (collect DOCS (Js.toLowerCase query))).
Proof. reflexivity. Qed.

Lemma searchDocs_no_results_iff (DOCS : DocStore) (query : string) :
  searchDocs DOCS (JsString query) = Returns (no_results query) <->
  forall name content l,
    In (name, content) DOCS -> In l (Js.split content nl) ->
    Js.includes (Js.toLowerCase l) (Js.toLowerCase query) = false.
Proof.
  rewrite searchDocs_string, <- collect_nil, <- render_no_results.
  split; [now intros [= ->] | now intros ->].
Qed.

(** ** Search *)




(** C10: a query that contains a newline never has a hit, whatever the
    documents hold: a line has no newline in it, so it cannot contain the query.
    The document-level test may well succeed (see the witness). *)
Theorem search_newline_query (DOCS : DocStore) (query : string) :
  Js.includes query nl = true ->
  searchDocs DOCS (JsString query)
    = Returns ("No results found for '" ++ query ++ "'").
Proof.
  intros Hq. apply (proj2 (searchDocs_no_results_iff DOCS query)).
  intros name content l _ Hl.
  destruct (Js.includes (Js.toLowerCase l) (Js.toLowerCase query)) eqn:E;
    [exfalso | reflexivity].
  apply (split_lines_no_LF _ _ Hl).
  apply occurs_LF_toLowerCase.
  apply (includes_occurs _ _ _ E).
  apply occurs_LF_toLowerCase.
  apply (includes_occurs _ _ _ Hq). simpl. now left.
Qed.

Lemma search_newline_query_witness :
  Js.includes (Js.toLowerCase ("intro" ++ nl ++ "Alpha" ++ nl ++ "Beta"))
              (Js.toLowerCase ("alpha" ++ nl ++ "beta")) = true
  /\ searchDocs [("a", "intro" ++ nl ++ "Alpha" ++ nl ++ "Beta")]
                (JsString ("alpha" ++ nl ++ "beta"))
     = Returns ("No results found for '" ++ ("alpha" ++ nl ++ "beta") ++ "'").
Proof.
  split; [reflexivity|].
  apply (search_newline_query
           [("a", "intro" ++ nl ++ "Alpha" ++ nl ++ "Beta")]
           ("alpha" ++ nl ++ "beta")).
  reflexivity.
Defined.


Section AnyLowering.

Variable lower : string -> string.

Lemma scan_lines_with_In (name : string) (lines : list string)
    (queryLower : string) (todo : list string) (i : nat) (hit : SearchResult) :
  In hit (scan_lines_with lower name lines queryLower todo i) <->
  exists k l,
    nth_error todo k = Some l
    /\ Js.includes (lower l) queryLower = true
    /\ hit = hit_at name lines (i + k).
Proof.
  revert i; induction todo as [|x todo IH]; intros i; cbn [scan_lines_with].
  - split; [intros [] | intros [[|k] [l [H _]]]; discriminate].
  - assert (Here :
      {| file := name; line := i + 1;
         matched :=
           Js.join
             (Js.slice lines (Z.to_nat (Z.max 0 (Z.of_nat i - 2)))
                (Z.to_nat (Z.min (Z.of_nat (List.length lines)) (Z.of_nat i + 6))))
             nl |}
      = hit_at name lines (i + 0)).
    { unfold hit_at, context_window. rewrite Nat.add_0_r.
      f_equal. f_equal. f_equal; lia. }
    assert (Hlater :
      In hit (scan_lines_with lower name lines queryLower todo (S i)) <->
      exists k l,
        nth_error (x :: todo) (S k) = Some l
        /\ Js.includes (lower l) queryLower = true
        /\ hit = hit_at name lines (i + S k)).
    { rewrite IH. split; intros [k [l [H1 [H2 H3]]]]; exists k, l;
        (repeat split; [exact H1 | exact H2 |]);
        [replace (i + S k) with (S i + k) by lia
        | replace (S i + k) with (i + S k) by lia]; exact H3. }
    destruct (Js.includes (lower x) queryLower) eqn:E.
    + cbn [In]. rewrite Hlater, Here. split.
      * intros [<- | [k [l H]]]; [exists 0, x; now repeat split | now exists (S k), l].
      * intros [[|k] [l [H1 [H2 H3]]]].
        -- left. now symmetry.
        -- right. now exists k, l.
    + rewrite Hlater. split.
      * intros [k [l H]]. now exists (S k), l.
      * intros [[|k] [l [H1 [H2 H3]]]]; [|now exists k, l].
        injection H1 as <-. congruence.
Qed.

Lemma collect_with_In (DOCS : DocStore) (queryLower : string) (hit : SearchResult) :
  In hit (collect_with lower DOCS queryLower) <->
  exists name content i l,
    In (name, content) DOCS
    /\ Js.includes (lower content) queryLower = true
    /\ nth_error (Js.split content nl) i = Some l
    /\ Js.includes (lower l) queryLower = true
    /\ hit = hit_at name (Js.split content nl) i.
Proof.
  unfold collect_with.
  enough (H : forall acc,
    In hit
      (fold_left
         (fun results (entry : string * string) =>
            let (name, content) := entry in
            if negb (Js.includes (lower content) queryLower) then results
            else
              let lines := Js.split content nl in
              (results ++ scan_lines_with lower name lines queryLower lines 0)%list)
         DOCS acc)
    <-> In hit acc
        \/ exists name content i l,
             In (name, content) DOCS
             /\ Js.includes (lower content) queryLower = true
             /\ nth_error (Js.split content nl) i = Some l
             /\ Js.includes (lower l) queryLower = true
             /\ hit = hit_at name (Js.split content nl) i).
  { rewrite H. cbn [In]. tauto. }
  induction DOCS as [|[name content] DOCS IH]; intros acc; cbn [fold_left].
  - split; [now left | intros [H | [? [? [? [? [[] _]]]]]]; exact H].
  - rewrite IH. destruct (Js.includes (lower content) queryLower) eqn:E; cbn [negb].
    + rewrite in_app_iff, scan_lines_with_In. split.
      * intros [[H | [k [l [H1 [H2 H3]]]]] | [n [c [i [l [H0 H]]]]]].
        -- now left.
        -- right. exists name, content, k, l. repeat split; try assumption.
           now left.
        -- right. exists n, c, i, l. split; [now right | exact H].
      * intros [H | [n [c [i [l [[[= <- <-] | H0] [H1 [H2 [H3 H4]]]]]]]]].
        -- now left; left.
        -- left; right. exists i, l. now repeat split.
        -- right. exists n, c, i, l. now repeat split.
    + split.
      * intros [H | [n [c [i [l [H0 H]]]]]]; [now left|].
        right. exists n, c, i, l. split; [now right | exact H].
      * intros [Ha | [n [c [i [l [[[= <- <-] | H0] [H1 Hr]]]]]]].
        -- now left.
        -- congruence.
        -- right. exists n, c, i, l. now repeat split.
Qed.

End AnyLowering.

(** The search over [Js.toLowerCase] is [searchDocs]. *)
Lemma search_with_ascii_lowering (DOCS : DocStore) (query : JsValue) :
  searchHits_with Js.toLowerCase DOCS query = searchHits DOCS query
  /\ searchDocs_with Js.toLowerCase DOCS query = searchDocs DOCS query.
Proof.
  assert (Hscan : forall name lines ql todo i,
            scan_lines_with Js.toLowerCase name lines ql todo i
            = scan_lines name lines ql todo i).
  { intros name lines ql todo. induction todo as [|l todo IH]; intros i;
      [reflexivity|]. cbn [scan_lines_with scan_lines]. now rewrite IH. }
  assert (Hcollect : forall ql, collect_with Js.toLowerCase DOCS ql = collect DOCS ql).
  { intros ql. unfold collect_with, collect.
    generalize (@nil SearchResult).
    induction DOCS as [|[name content] rest IH]; intros acc; [reflexivity|].
    cbn [fold_left]. rewrite Hscan. apply IH. }
  unfold searchHits_with, searchHits, searchDocs_with, searchDocs.
  destruct query; cbn [call_lower call_toLowerCase bind ToString];
    rewrite ?Hcollect; now split.
Qed.

(** C8: the search is blind to case, for whatever lowering the runtime has:
    the hits of a query are the lines whose lowering contains the lowering of
    the query (in a document whose lowering contains it), so two queries with
    the same lowering, such as [Momentum] and [momentum], have the same hits,
    and their reports differ at most in the query they quote. *)
Theorem search_case_insensitive (lower : string -> string) (DOCS : DocStore)
    (q1 q2 : string) :
  lower q1 = lower q2 ->
  searchHits_with lower DOCS (JsString q1) = searchHits_with lower DOCS (JsString q2)
  /\ (forall hit,
        (exists hits,
           searchHits_with lower DOCS (JsString q1) = Returns hits /\ In hit hits)
        <-> exists name content i l,
              In (name, content) DOCS
              /\ Js.includes (lower content) (lower q2) = true
              /\ nth_error (Js.split content nl) i = Some l
              /\ Js.includes (lower l) (lower q2) = true
              /\ hit = {| file := name;
                          line := i + 1;
                          matched :=
                            Js.join
                              (Js.slice (Js.split content nl) (Nat.max 0 (i - 2))
                                 (Nat.min (List.length (Js.split content nl)) (i + 6)))
                              nl |})
  /\ (exists hits,
        searchDocs_with lower DOCS (JsString q1) = Returns (render q1 hits)
        /\ searchDocs_with lower DOCS (JsString q2) = Returns (render q2 hits))
  /\ searchHits_with Js.toLowerCase DOCS (JsString q1)
     = searchHits DOCS (JsString q1).
Proof.
  intros H. split; [|split; [|split]].
  - cbn. now rewrite H.
  - intros hit. split.
    + intros [hits [[= <-] Hin]]. rewrite H in Hin.
      now apply collect_with_In in Hin.
    + intros Hex. eexists. split; [reflexivity|]. rewrite H.
      now apply collect_with_In.
  - exists (collect_with lower DOCS (lower q1)). split; [reflexivity|].
    cbn. now rewrite H.
  - apply search_with_ascii_lowering.
Qed.

Lemma search_case_insensitive_witness :
  Js.toLowerCase "Momentum" = Js.toLowerCase "momentum"
  /\ searchHits_with Js.toLowerCase [("f", "# Factors" ++ nl ++ "MOMENTUM 12m")]
       (JsString "Momentum")
     = Returns [ {| file := "f"; line := 2;
                    matched := "# Factors" ++ nl ++ "MOMENTUM 12m" |} ]
  /\ searchHits_with Js.toLowerCase [("f", "# Factors" ++ nl ++ "MOMENTUM 12m")]
       (JsString "Momentum")
     = searchHits_with Js.toLowerCase [("f", "# Factors" ++ nl ++ "MOMENTUM 12m")]
         (JsString "momentum").
Proof.
  split; [reflexivity|]. split; [reflexivity|].
  apply (search_case_insensitive Js.toLowerCase
           [("f", "# Factors" ++ nl ++ "MOMENTUM 12m")] "Momentum" "momentum").
  reflexivity.
Defined.




(** ** Documents by name *)

Lemma has_key_In (DOCS : DocStore) (key : string) :
  has_key DOCS key = true <-> In key (keys DOCS).
Proof.
  unfold has_key, keys. rewrite existsb_exists, in_map_iff.
  split; intros [entry [H1 H2]]; exists entry.
  - apply String.eqb_eq in H2. now split.
  - split; [exact H2 | now apply String.eqb_eq].
Qed.

Lemma get_key_In (DOCS : DocStore) (key content : string) :
  NoDup (keys DOCS) -> In (key, content) DOCS -> get_key DOCS key = Some content.
Proof.
  unfold get_key, keys.
  induction DOCS as [|[k c] DOCS IH]; intros Hnd Hin; [destruct Hin|].
  cbn [find fst]. inversion Hnd as [|? ? Hk Hnd']; subst.
  destruct (String.eqb_spec k key) as [->|Hne].
  - destruct Hin as [[= ->]|Hin]; [reflexivity|].
    exfalso. apply Hk. apply in_map_iff. now exists (key, content).
  - destruct Hin as [[= ? ?]|Hin]; [congruence | now apply IH].
Qed.

Lemma join_includes (parts : list string) (sep part : string) :
  In part parts -> exists pre post, Js.join parts sep = pre ++ part ++ post.
Proof.
  unfold Js.join.
  induction parts as [|x parts IH]; intros Hin; [destruct Hin|].
  destruct parts as [|y parts].
  - destruct Hin as [->|[]]. exists "", "". cbn. now rewrite append_empty_r.
  - change (String.concat sep (x :: y :: parts))
      with (x ++ sep ++ String.concat sep (y :: parts)).
    destruct Hin as [->|Hin].
    + now exists "", (sep ++ String.concat sep (y :: parts)).
    + destruct (IH Hin) as [pre [post ->]].
      exists (x ++ sep ++ pre), post. now rewrite !append_assoc.
Qed.

Lemma getDocument_own (DOCS : DocStore) (docName content : string) :
  NoDup (keys DOCS) -> In (docName, content) DOCS ->
  getDocument DOCS (JsString docName) = Returns (Text content).
Proof.
  intros Hnd Hin. unfold getDocument, in_DOCS, get_DOCS. cbn [ToString bind].
  assert (Hk : has_key DOCS docName = true).
  { apply has_key_In. apply in_map_iff. now exists (docName, content). }
  now rewrite Hk, (get_key_In _ _ _ Hnd Hin).
Qed.

Lemma get_key_missing (DOCS : DocStore) (key : string) :
  has_key DOCS key = false -> get_key DOCS key = None.
Proof.
  unfold has_key, get_key. induction DOCS as [|[k c] DOCS IH]; [reflexivity|].
  cbn [existsb find fst]. destruct (String.eqb k key); [discriminate | exact IH].
Qed.

(** A name that is neither a document nor inherited gets the not-found
    message, which quotes the name and lists every document name. *)
Lemma getDocument_missing (DOCS : DocStore) (docName : string) :
  has_key DOCS docName = false -> is_inherited docName = false ->
  getDocument DOCS (JsString docName)
  = Returns (Text ("Document '" ++ docName ++ "' not found." ++ nl ++ nl
                   ++ "Available documents: " ++ Js.join (keys DOCS) ", ")).
Proof.
  intros Hk Hi. unfold getDocument, in_DOCS. cbn [ToString bind].
  now rewrite Hk, Hi.
Qed.

(** A name that is no document but a property of [Object.prototype] passes
    the [in] test, and the inherited property is handed back. *)
Lemma getDocument_inherited (DOCS : DocStore) (docName : string) :
  has_key DOCS docName = false -> is_inherited docName = true ->
  getDocument DOCS (JsString docName) = Returns (Inherited docName).
Proof.
  intros Hk Hi. unfold getDocument, in_DOCS, get_DOCS. cbn [ToString bind].
  now rewrite Hk, Hi, (get_key_missing _ _ Hk).
Qed.

Lemma not_found_lists_names (DOCS : DocStore) (docName key : string) :
  In key (keys DOCS) ->
  Js.includes ("Document '" ++ docName ++ "' not found." ++ nl ++ nl
               ++ "Available documents: " ++ Js.join (keys DOCS) ", ") key = true.
Proof.
  intros Hkey. destruct (join_includes _ ", " _ Hkey) as [pre [post ->]].
  apply includes_spec.
  exists ("Document '" ++ docName ++ "' not found." ++ nl ++ nl
          ++ "Available documents: " ++ pre), post.
  now rewrite !append_assoc.
Qed.

(** C7 does not hold of [getDocument]: on a store with the single document
    [intro], the name [toString] is no document, yet [toString in DOCS] is
    true, because the store inherits the property from [Object.prototype];
    the call hands back that property, a function, where the not-found message
    is due.  A stored name, and a name that is not inherited, behave as
    C7 says. *)
Theorem getDocument_inherited_name :
  ~ In "toString" (keys [("intro", "# Intro")])
  /\ getDocument [("intro", "# Intro")] (JsString "toString")
     = Returns (Inherited "toString")
  /\ getDocument [("intro", "# Intro")] (JsString "toString")
     <> Returns (Text ("Document 'toString' not found." ++ nl ++ nl
                       ++ "Available documents: intro"))
  /\ getDocument [("intro", "# Intro")] (JsString "intro")
     = Returns (Text "# Intro")
  /\ getDocument [("intro", "# Intro")] (JsString "Intro")
     = Returns (Text ("Document 'Intro' not found." ++ nl ++ nl
                      ++ "Available documents: intro")).
Proof.
  repeat split; try reflexivity.
  - simpl. intuition discriminate.
  - discriminate.
Qed.

(** ** Factor examples *)

Lemma filterM_pure {A : Type} (p : A -> Completion bool) (q : A -> bool)
    (xs : list A) :
  (forall x, p x = Returns (q x)) -> filterM p xs = Returns (filter q xs).
Proof.
  intros H. induction xs as [|x xs IH]; [reflexivity|].
  cbn [filterM filter]. rewrite H, IH. cbn [bind]. now destruct (q x).
Qed.




(** ** Totality *)

(** C9, as the specification states it, fails: a call of [search_finlab_docs]
    whose argument object has no [query] raises a [TypeError], and so does the
    [tools/call] request that carries it. *)
Lemma search_without_query_throws :
  handleToolCall [("a", "x")] (JsString "search_finlab_docs") [] = Throws TypeError
  /\ handleMcpRequest [("a", "x")]
       (tool_call (IdNumber 1) (JsString "search_finlab_docs") (Some []))
     = Throws TypeError.
Proof. split; reflexivity. Qed.

Lemma getFactorExamples_string (DOCS : DocStore) (factorType : string) :
  exists s, getFactorExamples DOCS (JsString factorType) = Returns s.
Proof.
  unfold getFactorExamples.
  destruct (get_key DOCS "factor-examples") as [[|c content]|]; eauto.
  destruct (strict_eq_string (JsString factorType) "all"); eauto.
  rewrite (filterM_pure _
    (fun s => Js.includes (Js.toLowerCase s) (Js.toLowerCase factorType)))
    by reflexivity.
  cbn [bind ToString]. destruct (filter _ _); eauto.
Qed.

Lemma getFactorExamples_not_string (DOCS : DocStore) (v : JsValue) :
  is_string v = false -> v <> JsUndefined ->
  getFactorExamples DOCS v =
  match get_key DOCS "factor-examples" with
  | None | Some EmptyString => Returns factor_not_found
  | Some _ => Throws TypeError
  end.
Proof.
  intros Hs Hu. unfold getFactorExamples.
  destruct (get_key DOCS "factor-examples") as [[|c content]|]; try reflexivity.
  assert (Hsec : exists s ss, Js.split (String c content) (nl ++ "## ") = s :: ss).
  { destruct (Js.split (String c content) (nl ++ "## ")) as [|s ss] eqn:E; eauto.
    now apply split_from_nonempty in E. }
  destruct Hsec as [s [ss ->]].
  destruct v; try discriminate; try reflexivity. congruence.
Qed.

Lemma get_key_present (DOCS : DocStore) (key : string) :
  has_key DOCS key = true -> exists content, get_key DOCS key = Some content.
Proof.
  unfold has_key, get_key. induction DOCS as [|[k c] DOCS IH]; [discriminate|].
  cbn [existsb find fst]. destruct (String.eqb k key); [now exists c | exact IH].
Qed.

(** The outcomes of [getDocument]. *)
Lemma getDocument_cases (DOCS : DocStore) (docName : JsValue) :
  (ToString docName = Throws TypeError
   /\ getDocument DOCS docName = Throws TypeError)
  \/ (exists key content,
        ToString docName = Returns key /\ get_key DOCS key = Some content
        /\ getDocument DOCS docName = Returns (Text content))
  \/ (exists key,
        ToString docName = Returns key /\ has_key DOCS key = false
        /\ is_inherited key = true
        /\ getDocument DOCS docName = Returns (Inherited key))
  \/ (exists key,
        ToString docName = Returns key /\ has_key DOCS key = false
        /\ is_inherited key = false
        /\ getDocument DOCS docName
           = Returns (Text ("Document '" ++ key ++ "' not found." ++ nl ++ nl
                            ++ "Available documents: " ++ Js.join (keys DOCS) ", "))).
Proof.
  unfold getDocument, in_DOCS, get_DOCS.
  destruct (ToString docName) as [key|[]]; cbn [bind]; [|now left].
  right. destruct (has_key DOCS key) eqn:Hk.
  - left. destruct (get_key_present _ _ Hk) as [content Hc].
    exists key, content. rewrite Hc. now repeat split.
  - right. rewrite (get_key_missing _ _ Hk).
    destruct (is_inherited key) eqn:Hi; [left | right]; exists key; now repeat split.
Qed.

(** The branches of [handleToolCall]. *)
Lemma tool_name_cases (name : JsValue) :
  name = JsString "list_documents" \/ name = JsString "get_document"
  \/ name = JsString "search_finlab_docs" \/ name = JsString "get_factor_examples"
  \/ (strict_eq_string name "list_documents" = false
      /\ strict_eq_string name "get_document" = false
      /\ strict_eq_string name "search_finlab_docs" = false
      /\ strict_eq_string name "get_factor_examples" = false).
Proof.
  destruct name as [| |b|s|n|items|props]; try (repeat right; now repeat split).
  cbn [strict_eq_string].
  destruct (String.eqb_spec s "list_documents") as [->|_]; [now left|].
  destruct (String.eqb_spec s "get_document") as [->|_]; [now right; left|].
  destruct (String.eqb_spec s "search_finlab_docs") as [->|_];
    [now right; right; left|].
  destruct (String.eqb_spec s "get_factor_examples") as [->|_];
    [now right; right; right; left|].
  repeat right. now repeat split.
Qed.

Lemma handleToolCall_other (DOCS : DocStore) (name : JsValue) (args : Args) :
  strict_eq_string name "list_documents" = false ->
  strict_eq_string name "get_document" = false ->
  strict_eq_string name "search_finlab_docs" = false ->
  strict_eq_string name "get_factor_examples" = false ->
  handleToolCall DOCS name args
  = (do shown <- ToString name; Returns (Text ("Unknown tool: " ++ shown))).
Proof. intros H1 H2 H3 H4. unfold handleToolCall. now rewrite H1, H2, H3, H4. Qed.

Lemma handleToolCall_search (DOCS : DocStore) (args : Args) :
  handleToolCall DOCS (JsString "search_finlab_docs") args
  = match arg args "query" with
    | JsString query =>
        Returns (Text (render query (collect DOCS (Js.toLowerCase query))))
    | _ => Throws TypeError
    end.
Proof.
  unfold handleToolCall, searchDocs.
  cbn [strict_eq_string String.eqb Ascii.eqb Bool.eqb].
  now destruct (arg args "query").
Qed.

Lemma handleToolCall_factor (DOCS : DocStore) (args : Args) :
  handleToolCall DOCS (JsString "get_factor_examples") args
  = (do examples <-
       getFactorExamples DOCS
         (if truthy (arg args "factor_type") then arg args "factor_type"
          else JsString "all");
     Returns (Text examples)).
Proof. reflexivity. Qed.

(** When [handleToolCall] raises an error. *)
Lemma handleToolCall_throws (DOCS : DocStore) (name : JsValue) (args : Args) :
  handleToolCall DOCS name args = Throws TypeError <->
  (name = JsString "search_finlab_docs"
   /\ is_string (arg args "query") = false)
  \/ (name = JsString "get_factor_examples"
      /\ truthy (arg args "factor_type") = true
      /\ is_string (arg args "factor_type") = false
      /\ exists content,
           get_key DOCS "factor-examples" = Some content /\ content <> "")
  \/ (name = JsString "get_document"
      /\ ToString (arg args "doc_name") = Throws TypeError)
  \/ ToString name = Throws TypeError.
Proof.
  destruct (tool_name_cases name) as [->|[->|[->|[->|[H1 [H2 [H3 H4]]]]]]].
  - split; [discriminate|].
    intros [[? _]|[[? _]|[[? _]|?]]]; discriminate.
  - change (handleToolCall DOCS (JsString "get_document") args)
      with (getDocument DOCS (arg args "doc_name")).
    split.
    + intros H. right; right; left. split; [reflexivity|].
      destruct (getDocument_cases DOCS (arg args "doc_name"))
        as [[Ht _]|[[k [c [_ [_ E]]]]|[[k [_ [_ [_ E]]]]|[k [_ [_ [_ E]]]]]]];
        [exact Ht | | |]; rewrite E in H; discriminate.
    + intros [[? _]|[[? _]|[[_ Ht]|?]]]; try discriminate.
      unfold getDocument. now rewrite Ht.
  - rewrite handleToolCall_search.
    destruct (arg args "query"); cbn [is_string];
      (split; [try discriminate; intros _; left; now split
              | try reflexivity;
                intros [[_ ?]|[[? _]|[[? _]|?]]]; discriminate]).
  - rewrite handleToolCall_factor.
    destruct (truthy (arg args "factor_type")) eqn:Ht.
    + destruct (is_string (arg args "factor_type")) eqn:Hs.
      * destruct (arg args "factor_type") as [| |b|ft|n|items|props];
          try discriminate.
        destruct (getFactorExamples_string DOCS ft) as [r ->]. cbn [bind].
        split; [discriminate|].
        intros [[? _]|[[_ [_ [? _]]]|[[? _]|?]]]; discriminate.
      * rewrite getFactorExamples_not_string;
          [|exact Hs | intros E; rewrite E in Ht; discriminate].
        destruct (get_key DOCS "factor-examples") as [[|c content]|] eqn:Hdoc;
          cbn [bind].
        -- split; [discriminate|].
           intros [[? _]|[[_ [_ [_ [content [[= <-] ?]]]]]|[[? _]|?]]];
             try discriminate; congruence.
        -- split; [|reflexivity]. intros _. right; left. repeat split.
           exists (String c content). split; [reflexivity | discriminate].
        -- split; [discriminate|].
           intros [[? _]|[[_ [_ [_ [content [? _]]]]]|[[? _]|?]]]; discriminate.
    + destruct (getFactorExamples_string DOCS "all") as [r ->]. cbn [bind].
      split; [discriminate|].
      intros [[? _]|[[_ [? _]]|[[? _]|?]]]; discriminate.
  - rewrite (handleToolCall_other DOCS name args H1 H2 H3 H4).
    destruct (ToString name) as [shown|[]] eqn:E; cbn [bind].
    + split; [discriminate|].
      intros [[-> _]|[[-> _]|[[-> _]|?]]]; discriminate.
    + split; [|reflexivity]. intros _. now repeat right.
Qed.

(** What [handleToolCall] returns is a text, but for a [get_document] call
    that reaches an inherited property. *)
Lemma handleToolCall_returns (DOCS : DocStore) (name : JsValue) (args : Args)
    (out : Output) :
  handleToolCall DOCS name args = Returns out ->
  (exists s, out = Text s)
  \/ (name = JsString "get_document"
      /\ exists key,
           out = Inherited key
           /\ ToString (arg args "doc_name") = Returns key
           /\ has_key DOCS key = false /\ is_inherited key = true).
Proof.
  destruct (tool_name_cases name) as [->|[->|[->|[->|[H1 [H2 [H3 H4]]]]]]].
  - intros [= <-]. left. eauto.
  - change (handleToolCall DOCS (JsString "get_document") args)
      with (getDocument DOCS (arg args "doc_name")).
    destruct (getDocument_cases DOCS (arg args "doc_name"))
      as [[_ E]|[[k [c [_ [_ E]]]]|[[k [Ht [Hk [Hi E]]]]|[k [_ [_ [_ E]]]]]]];
      rewrite E; intros [= <-].
    + left. eauto.
    + right. split; [reflexivity|]. exists k. now repeat split.
    + left. eauto.
  - rewrite handleToolCall_search.
    destruct (arg args "query"); try discriminate. intros [= <-]. left. eauto.
  - rewrite handleToolCall_factor.
    destruct (getFactorExamples DOCS _) as [examples|e]; [|discriminate].
    intros [= <-]. left. eauto.
  - rewrite (handleToolCall_other DOCS name args H1 H2 H3 H4).
    destruct (ToString name) as [shown|e]; [|discriminate].
    intros [= <-]. left. eauto.
Qed.

(** C9, amended: on string inputs [listDocuments], [searchDocs] and
    [getFactorExamples] return a string, and so does [getDocument] for a name
    that is a document or is no property name of [Object.prototype].  The
    tool-call dispatch raises a [TypeError] exactly for [search_finlab_docs]
    when [query] is not a string (or is missing), for [get_factor_examples]
    when [factor_type] is a truthy value that is not a string and the
    [factor-examples] document is present and not empty, for [get_document]
    when [doc_name] cannot be converted to a string, and for a tool name that
    cannot be converted to a string; in every other case it returns, and what
    it returns is a string, a [get_document] call for an inherited name that
    is no document set aside. *)
Theorem tool_calls_return_strings (DOCS : DocStore) :
  (forall args,
     handleToolCall DOCS (JsString "list_documents") args
     = Returns (Text (listDocuments DOCS)))
  /\ (forall query, exists s, searchDocs DOCS (JsString query) = Returns s)
  /\ (forall factorType,
        exists s, getFactorExamples DOCS (JsString factorType) = Returns s)
  /\ (forall docName,
        has_key DOCS docName = true \/ is_inherited docName = false ->
        exists s, getDocument DOCS (JsString docName) = Returns (Text s))
  /\ (forall name args,
        handleToolCall DOCS name args = Throws TypeError <->
        (name = JsString "search_finlab_docs"
         /\ is_string (arg args "query") = false)
        \/ (name = JsString "get_factor_examples"
            /\ truthy (arg args "factor_type") = true
            /\ is_string (arg args "factor_type") = false
            /\ exists content,
                 get_key DOCS "factor-examples" = Some content /\ content <> "")
        \/ (name = JsString "get_document"
            /\ ToString (arg args "doc_name") = Throws TypeError)
        \/ ToString name = Throws TypeError)
  /\ (forall name args,
        handleToolCall DOCS name args <> Throws TypeError ->
        (forall key,
           name = JsString "get_document" ->
           ToString (arg args "doc_name") = Returns key ->
           has_key DOCS key = true \/ is_inherited key = false) ->
        exists s, handleToolCall DOCS name args = Returns (Text s)).
Proof.
  split; [reflexivity|]. split; [intros query; eexists; reflexivity|].
  split; [apply getFactorExamples_string|]. split; [|split].
  - intros docName Hok.
    destruct (getDocument_cases DOCS (JsString docName))
      as [[Ht _]|[[k [c [_ [_ E]]]]|[[k [[= <-] [Hk [Hi _]]]]|[k [_ [_ [_ E]]]]]]].
    + discriminate.
    + eauto.
    + destruct Hok; congruence.
    + eauto.
  - apply handleToolCall_throws.
  - intros name args Hreturns Hname.
    destruct (handleToolCall DOCS name args) as [out|[]] eqn:E; [|congruence].
    destruct (handleToolCall_returns _ _ _ _ E) as [[s ->] | [Hn [key [-> [Ht [Hk Hi]]]]]];
      [now exists s|].
    destruct (Hname key Hn Ht); congruence.
Qed.

Lemma tool_calls_return_strings_witness :
  exists s,
    handleToolCall [("a", "x")] (JsString "get_document")
                   [("doc_name", JsNumber "7")] = Returns (Text s).
Proof.
  apply (proj2 (proj2 (proj2 (proj2 (proj2
           (tool_calls_return_strings [("a", "x")])))))).
  - discriminate.
  - intros key _ [= <-]. now right.
Defined.

(** ** Envelopes *)

Lemma known_method_dec (m : string) : {known_method m} + {~ known_method m}.
Proof.
  unfold known_method.
  destruct (string_dec m "initialize"); [now left; left|].
  destruct (string_dec m "tools/list"); [now left; right; left|].
  destruct (string_dec m "tools/call"); [now left; right; right|].
  right. tauto.
Qed.

Lemma handleMcpRequest_unknown (DOCS : DocStore) (request : McpRequest) :
  ~ known_method (method request) ->
  handleMcpRequest DOCS request =
  Returns {| jsonrpc := "2.0";
             id := req_id request;
             result := None;
             error := Some {| code := (-32601)%Z;
                              message := "Method not found: " ++ method request |} |}.
Proof.
  unfold known_method, handleMcpRequest. intros H.
  destruct (String.eqb_spec (method request) "initialize"); [tauto|].
  destruct (String.eqb_spec (method request) "tools/list"); [tauto|].
  destruct (String.eqb_spec (method request) "tools/call"); [tauto|].
  reflexivity.
Qed.

Lemma handleMcpRequest_known (DOCS : DocStore) (request : McpRequest)
    (response : McpResponse) :
  known_method (method request) ->
  handleMcpRequest DOCS request = Returns response ->
  id response = req_id request
  /\ result response <> None /\ error response = None.
Proof.
  unfold handleMcpRequest. intros [H | [H | H]]; rewrite H; cbn [String.eqb Ascii.eqb Bool.eqb].
  - intros [= <-]. cbn. repeat split. discriminate.
  - intros [= <-]. cbn. repeat split. discriminate.
  - destruct (params request) as [p|]; [|discriminate].
    destruct (handleToolCall DOCS (name p) _) as [content|e]; [|discriminate].
    intros [= <-]. cbn. repeat split. discriminate.
Qed.

Lemma handleMcpRequest_tool_call (DOCS : DocStore) (id : RequestId)
    (toolName : JsValue) (args : Args) (content : Output) :
  handleToolCall DOCS toolName args = Returns content ->
  handleMcpRequest DOCS (tool_call id toolName (Some args))
  = Returns (text_envelope id content).
Proof.
  intros H. unfold handleMcpRequest, tool_call. cbn. now rewrite H.
Qed.

(** C1: every envelope that the dispatcher returns carries the identifier of
    its request and has exactly one of [result] and [error]; the dispatcher
    returns an envelope for every request whose method is not [tools/call],
    and for a [tools/call] request whenever [params] is present and the tool
    call returns. *)
Theorem response_envelope_invariant (DOCS : DocStore) (request : McpRequest) :
  (forall response,
     handleMcpRequest DOCS request = Returns response ->
     id response = req_id request /\ result_xor_error response)
  /\ (method request <> "tools/call" ->
      exists response, handleMcpRequest DOCS request = Returns response)
  /\ (forall p content,
        params request = Some p ->
        handleToolCall DOCS (name p)
          (match arguments p with Some a => a | None => [] end) = Returns content ->
        exists response, handleMcpRequest DOCS request = Returns response).
Proof.
  repeat split.
  - destruct (known_method_dec (method request)) as [Hk|Hu].
    + now apply (handleMcpRequest_known DOCS request response Hk).
    + rewrite (handleMcpRequest_unknown DOCS request Hu) in H.
      now injection H as <-.
  - destruct (known_method_dec (method request)) as [Hk|Hu].
    + left. now apply (handleMcpRequest_known DOCS request response Hk).
    + right. rewrite (handleMcpRequest_unknown DOCS request Hu) in H.
      injection H as <-. split; [reflexivity | discriminate].
  - intros Hm. unfold handleMcpRequest.
    destruct (String.eqb (method request) "initialize"); [eauto|].
    destruct (String.eqb (method request) "tools/list"); [eauto|].
    destruct (String.eqb_spec (method request) "tools/call"); [tauto | eauto].
  - intros p content Hp Hc. unfold handleMcpRequest.
    destruct (String.eqb (method request) "initialize"); [eauto|].
    destruct (String.eqb (method request) "tools/list"); [eauto|].
    destruct (String.eqb (method request) "tools/call"); [|eauto].
    rewrite Hp, Hc. cbn. eauto.
Qed.

Lemma response_envelope_invariant_witness :
  id (text_envelope (IdString "r-7") "Unknown tool: nope") = IdString "r-7"
  /\ result_xor_error (text_envelope (IdString "r-7") "Unknown tool: nope").
Proof.
  apply (proj1 (response_envelope_invariant
                  [("a", "x")]
                  (tool_call (IdString "r-7") (JsString "nope") None))).
  reflexivity.
Defined.

(** The dispatcher answers with an envelope that has the error (code -32601
    and a message naming the method) and no result exactly when the method is
    none of [initialize], [tools/list] and [tools/call].  A [tools/call] with
    a tool name that is not known, a [get_document] call for a name that is
    neither in the store nor inherited, and a search without hits each get
    the envelope with a text result and no error; the text says what
    happened. *)
Lemma protocol_errors_only_for_unknown_methods (DOCS : DocStore) :
  (forall request,
     ~ known_method (method request) ->
     handleMcpRequest DOCS request
     = Returns {| jsonrpc := "2.0";
                  id := req_id request;
                  result := None;
                  error := Some {| code := (-32601)%Z;
                                   message := "Method not found: "
                                              ++ method request |} |})
  /\ (forall request response,
        handleMcpRequest DOCS request = Returns response ->
        error response <> None \/ result response = None ->
        ~ known_method (method request))
  /\ (forall id toolName args,
        toolName <> "list_documents" -> toolName <> "get_document" ->
        toolName <> "search_finlab_docs" -> toolName <> "get_factor_examples" ->
        handleMcpRequest DOCS (tool_call id (JsString toolName) args)
        = Returns (text_envelope id ("Unknown tool: " ++ toolName)))
  /\ (forall id docName,
        has_key DOCS docName = false ->
        is_inherited docName = false ->
        handleMcpRequest DOCS
          (tool_call id (JsString "get_document")
                     (Some [("doc_name", JsString docName)]))
        = Returns (text_envelope id
                     ("Document '" ++ docName ++ "' not found." ++ nl ++ nl
                      ++ "Available documents: " ++ Js.join (keys DOCS) ", ")))
  /\ (forall id query,
        searchHits DOCS (JsString query) = Returns [] ->
        handleMcpRequest DOCS
          (tool_call id (JsString "search_finlab_docs")
                     (Some [("query", JsString query)]))
        = Returns (text_envelope id ("No results found for '" ++ query ++ "'"))).
Proof.
  split; [|split; [|split; [|split]]].
  - intros request. apply handleMcpRequest_unknown.
  - intros request response H Herr Hk.
    destruct (handleMcpRequest_known DOCS request response Hk H) as [_ [Hr He]].
    destruct Herr; contradiction.
  - intros id toolName args H1 H2 H3 H4.
    unfold handleMcpRequest, tool_call. cbn -[handleToolCall].
    unfold handleToolCall. cbn [strict_eq_string].
    destruct (String.eqb_spec toolName "list_documents"); [contradiction|].
    destruct (String.eqb_spec toolName "get_document"); [contradiction|].
    destruct (String.eqb_spec toolName "search_finlab_docs"); [contradiction|].
    destruct (String.eqb_spec toolName "get_factor_examples"); [contradiction|].
    reflexivity.
  - intros id docName Hk Hi. apply handleMcpRequest_tool_call.
    change (handleToolCall DOCS (JsString "get_document")
              [("doc_name", JsString docName)])
      with (getDocument DOCS (JsString docName)).
    now apply getDocument_missing.
  - intros id query [= H]. apply handleMcpRequest_tool_call.
    unfold handleToolCall, searchDocs. cbn. now rewrite H.
Qed.

Lemma protocol_errors_only_for_unknown_methods_witness :
  handleMcpRequest [("a", "x")]
    {| req_jsonrpc := "2.0"; req_id := IdNumber 3; method := "resources/list";
       params := None |}
  = Returns {| jsonrpc := "2.0";
               id := IdNumber 3;
               result := None;
               error := Some {| code := (-32601)%Z;
                                message := "Method not found: resources/list" |} |}
  /\ handleMcpRequest [("a", "x")]
       (tool_call (IdNumber 4) (JsString "search_finlab_docs")
                  (Some [("query", JsString "zebra")]))
     = Returns (text_envelope (IdNumber 4) "No results found for 'zebra'").
Proof.
  split.
  - apply (proj1 (protocol_errors_only_for_unknown_methods [("a", "x")])
             {| req_jsonrpc := "2.0"; req_id := IdNumber 3;
                method := "resources/list"; params := None |}).
    unfold known_method. cbn. intuition discriminate.
  - apply (proj2 (proj2 (proj2 (proj2
             (protocol_errors_only_for_unknown_methods [("a", "x")]))))
             (IdNumber 4) "zebra").
    reflexivity.
Defined.

(** C4 does not hold of the dispatcher for one of the conditions it names, the
    missing document: a [get_document] call for [toString], which is no
    document of the store, gets an envelope whose text is neither the
    not-found message nor any other text, but the function that the store
    inherits under that name.  (An unknown method, an unknown tool and a search
    without hits are answered as C4 says.) *)
Theorem missing_document_inherited_name :
  has_key [("intro", "# Intro")] "toString" = false
  /\ handleMcpRequest [("intro", "# Intro")]
       (tool_call (IdNumber 1) (JsString "get_document")
                  (Some [("doc_name", JsString "toString")]))
     = Returns {| jsonrpc := "2.0";
                  id := IdNumber 1;
                  result := Some (ToolCallResult
                                    [ {| content_type := "text";
                                         text := Inherited "toString" |} ]);
                  error := None |}
  /\ (forall s : string, Inherited "toString" <> Text s)
  /\ handleMcpRequest [("intro", "# Intro")]
       (tool_call (IdNumber 2) (JsString "get_document")
                  (Some [("doc_name", JsString "nothing")]))
     = Returns (text_envelope (IdNumber 2)
                  (Text ("Document 'nothing' not found." ++ nl ++ nl
                         ++ "Available documents: intro"))).
Proof. repeat split. discriminate. Qed.

(** * Further properties *)

(** ** Lines and their join *)

Section LineJoin.

Let LF : ascii := ascii_of_nat 10.

Lemma split_line_alone (l : string) :
  ~ occurs LF l -> Js.split l nl = [l].
Proof.
  unfold Js.split, nl, Js.newline. fold LF.
  induction l as [|c l IH]; intros H; [reflexivity|].
  cbn [Js.split_from Js.startsWith].
  destruct (Ascii.eqb_spec LF c) as [<-|Hc]; [exfalso; apply H; now left|].
  rewrite IH; [reflexivity|]. intros Ho. apply H. now right.
Qed.

Lemma split_line_cons (l rest : string) :
  ~ occurs LF l -> Js.split (l ++ nl ++ rest) nl = l :: Js.split rest nl.
Proof.
  unfold Js.split, nl, Js.newline. fold LF.
  induction l as [|c l IH]; intros H.
  - cbn [append Js.split_from Js.startsWith String.length Nat.sub].
    now rewrite Ascii.eqb_refl.
  - cbn [append Js.split_from Js.startsWith].
    destruct (Ascii.eqb_spec LF c) as [<-|Hc]; [exfalso; apply H; now left|].
    cbn [append] in IH. rewrite IH; [reflexivity|]. intros Ho. apply H. now right.
Qed.

(** Lines without a newline, joined by newlines, split back into themselves. *)
Lemma split_join_lines (ls : list string) :
  ls <> [] -> (forall l, In l ls -> ~ occurs LF l) ->
  Js.split (Js.join ls nl) nl = ls.
Proof.
  unfold Js.join.
  induction ls as [|x ls IH]; intros Hne Hall; [congruence|].
  destruct ls as [|y ls].
  - cbn [String.concat]. apply split_line_alone. apply Hall. now left.
  - change (String.concat nl (x :: y :: ls))
      with (x ++ nl ++ String.concat nl (y :: ls)).
    rewrite split_line_cons by (apply Hall; now left).
    f_equal. apply IH; [discriminate|]. intros l Hl. apply Hall. now right.
Qed.

End LineJoin.

Lemma slice_In {A : Type} (xs : list A) (a b : nat) (x : A) :
  In x (Js.slice xs a b) -> In x xs.
Proof.
  unfold Js.slice. intros H.
  rewrite <- (firstn_skipn a xs). apply in_or_app. right.
  rewrite <- (firstn_skipn (b - a) (skipn a xs)). apply in_or_app. now left.
Qed.

(** What a hit of the search is, read off [collect_spec]. *)
Lemma collect_In (DOCS : DocStore) (queryLower : string) (hit : SearchResult) :
  In hit (collect DOCS queryLower) <->
  exists name content i l,
    In (name, content) DOCS
    /\ nth_error (Js.split content nl) i = Some l
    /\ Js.includes (Js.toLowerCase l) queryLower = true
    /\ hit = hit_at name (Js.split content nl) i.
Proof.
  rewrite collect_spec, in_flat_map. split.
  - intros [[name content] [Hdoc Hin]]. cbn [document_hits] in Hin.
    apply in_map_iff in Hin as [i [<- Hi]].
    unfold matching_lines in Hi. apply filter_In in Hi as [Hi Hm].
    apply in_seq in Hi.
    exists name, content, i, (nth i (Js.split content nl) "").
    repeat split; try assumption. apply nth_error_nth'. lia.
  - intros [name [content [i [l [Hdoc [Hl [Hm ->]]]]]]].
    exists (name, content). split; [exact Hdoc|].
    cbn [document_hits]. apply in_map. unfold matching_lines.
    apply filter_In. split.
    + apply in_seq. assert (i < List.length (Js.split content nl))
        by (apply nth_error_Some; congruence). lia.
    + now rewrite (nth_error_nth _ _ "" Hl).
Qed.

(** ** More on search *)



(** X2: the context text of a hit, split at the newlines, gives back the
    lines of its window: between one and eight lines of the document, the
    lines [[max(0, i-2), min(len, i+6))] around the 0-based match line [i]. *)
Theorem search_hit_text_splits_into_window (DOCS : DocStore) (query : string)
    (hits : list SearchResult) (hit : SearchResult) :
  searchHits DOCS (JsString query) = Returns hits ->
  In hit hits ->
  exists content,
    In (file hit, content) DOCS
    /\ Js.split (matched hit) nl
       = context_window (Js.split content nl) (line hit - 1)
    /\ 1 <= List.length (Js.split (matched hit) nl) <= 8.
Proof.
  intros [= <-] Hin.
  apply collect_In in Hin as [name [content [i [l [Hdoc [Hl [Hm ->]]]]]]].
  exists content. cbn [hit_at file line matched].
  replace (i + 1 - 1) with i by lia.
  destruct (context_window_parts _ _ _ Hl) as [Hw [Hlead Htrail]].
  assert (Hsplit : Js.split (Js.join (context_window (Js.split content nl) i) nl) nl
                   = context_window (Js.split content nl) i).
  { apply split_join_lines.
    - rewrite Hw. intros E. now apply app_eq_nil in E as [_ E].
    - intros x Hx. apply (split_lines_no_LF content).
      unfold context_window in Hx. now apply slice_In in Hx. }
  repeat split; try assumption.
  - rewrite Hsplit, Hw, length_app. cbn [List.length]. lia.
  - rewrite Hsplit, Hw, length_app. cbn [List.length]. lia.
Qed.

Lemma search_hit_text_splits_into_window_witness :
  exists content,
    In ("doc", content) [("doc", "alpha" ++ nl ++ "Beta gamma")]
    /\ Js.split ("alpha" ++ nl ++ "Beta gamma") nl
       = context_window (Js.split content nl) (2 - 1)
    /\ 1 <= List.length (Js.split ("alpha" ++ nl ++ "Beta gamma") nl) <= 8.
Proof.
  apply (search_hit_text_splits_into_window
           [("doc", "alpha" ++ nl ++ "Beta gamma")] "BETA"
           [ {| file := "doc"; line := 2; matched := "alpha" ++ nl ++ "Beta gamma" |} ]
           {| file := "doc"; line := 2; matched := "alpha" ++ nl ++ "Beta gamma" |}).
  - reflexivity.
  - now left.
Defined.

(** X3: the document-level test of [searchDocs] only saves work: scanning the
    lines of every document, also of those the test would skip, gives the
    same hits. *)
Theorem search_prefilter_is_redundant (DOCS : DocStore) (query : string) :
  searchHits DOCS (JsString query)
  = Returns
      (flat_map
         (fun entry : string * string =>
            scan_lines (fst entry) (Js.split (snd entry) nl) (Js.toLowerCase query)
                       (Js.split (snd entry) nl) 0)
         DOCS).
Proof.
  cbn [searchHits call_toLowerCase bind]. f_equal.
  rewrite collect_spec. apply flat_map_ext. intros [name content].
  cbn [document_hits fst snd]. now rewrite scan_all_lines.
Qed.

(** X4: in a store with distinct names no line is reported twice: the pairs
    of document name and line number of the hits are pairwise distinct. *)
Theorem search_hits_are_distinct (DOCS : DocStore) (query : string)
    (hits : list SearchResult) :
  NoDup (keys DOCS) ->
  searchHits DOCS (JsString query) = Returns hits ->
  NoDup (map (fun hit => (file hit, line hit)) hits).
Proof.
  intros Hnd [= <-]. rewrite collect_spec.
  induction DOCS as [|[name content] DOCS IH]; [constructor|].
  cbn [flat_map]. rewrite map_app.
  inversion Hnd as [|? ? Hname Hnd']; subst.
  apply NoDup_app.
  - cbn [document_hits]. rewrite map_map. cbn [hit_at file line].
    apply NoDup_map_NoDup_ForallPairs.
    + intros i j _ _ [= H]. lia.
    + unfold matching_lines. apply NoDup_filter, seq_NoDup.
  - now apply IH.
  - intros [f n] H1 H2.
    apply in_map_iff in H1 as [h1 [E1 H1]].
    apply in_map_iff in H2 as [h2 [E2 H2]].
    cbn [document_hits] in H1. apply in_map_iff in H1 as [i [<- _]].
    apply in_flat_map in H2 as [[name2 content2] [Hdoc2 H2]].
    cbn [document_hits] in H2. apply in_map_iff in H2 as [j [<- _]].
    cbn [hit_at file line] in E1, E2.
    injection E1 as <- _. injection E2 as E2 _.
    apply Hname. cbn [keys]. apply in_map_iff.
    exists (name2, content2). split; [exact E2 | exact Hdoc2].
Qed.

Lemma search_hits_are_distinct_witness :
  NoDup (map (fun hit => (file hit, line hit))
             [ {| file := "a"; line := 1; matched := "x" ++ nl ++ "X" |};
               {| file := "a"; line := 2; matched := "x" ++ nl ++ "X" |} ]).
Proof.
  apply (search_hits_are_distinct [("a", "x" ++ nl ++ "X")] "x").
  - repeat constructor. simpl. tauto.
  - reflexivity.
Defined.

(** X5: searching a store that is two stores one after the other gives the
    hits of the first followed by the hits of the second. *)
Theorem search_hits_of_appended_stores (DOCS1 DOCS2 : DocStore) (query : string) :
  exists hits1 hits2,
    searchHits DOCS1 (JsString query) = Returns hits1
    /\ searchHits DOCS2 (JsString query) = Returns hits2
    /\ searchHits (DOCS1 ++ DOCS2)%list (JsString query)
       = Returns (hits1 ++ hits2)%list.
Proof.
  exists (collect DOCS1 (Js.toLowerCase query)), (collect DOCS2 (Js.toLowerCase query)).
  repeat split. cbn [searchHits call_toLowerCase bind]. f_equal.
  rewrite !collect_spec. apply flat_map_app.
Qed.



(** ** More on factor examples *)

Lemma join_prefixed_not_empty (sections : list string) (sep : string) :
  sections <> [] ->
  Js.join (map (fun s => "## " ++ s) sections) sep <> "".
Proof.
  destruct sections as [|x [|y rest]]; [congruence | |]; intros _; discriminate.
Qed.

(** [getFactorExamples] on a string, with the filter written out. *)
Lemma getFactorExamples_on_string (DOCS : DocStore) (factorType : string) :
  getFactorExamples DOCS (JsString factorType) =
  match get_key DOCS "factor-examples" with
  | None | Some EmptyString => Returns factor_not_found
  | Some content =>
      if String.eqb factorType "all" then Returns content
      else
        match filter (fun s => Js.includes (Js.toLowerCase s)
                                           (Js.toLowerCase factorType))
                     (Js.split content (nl ++ "## ")) with
        | [] => Returns (factor_guidance factorType)
        | matching =>
            Returns (Js.join (map (fun s => "## " ++ s) matching) (nl ++ nl))
        end
  end.
Proof.
  unfold getFactorExamples.
  destruct (get_key DOCS "factor-examples") as [[|c content]|]; try reflexivity.
  cbn [strict_eq_string]. destruct (String.eqb factorType "all"); [reflexivity|].
  rewrite (filterM_pure _
    (fun s => Js.includes (Js.toLowerCase s) (Js.toLowerCase factorType)))
    by reflexivity.
  cbn [bind ToString]. now destruct (filter _ _).
Qed.

(** X7: for a factor type that is a string, [getFactorExamples] never answers
    with the empty string: not when the document is missing or empty, not
    when nothing matches, and not when sections match. *)
Theorem getFactorExamples_answer_not_empty (DOCS : DocStore) (factorType : string) :
  exists answer,
    getFactorExamples DOCS (JsString factorType) = Returns answer
    /\ answer <> "".
Proof.
  rewrite getFactorExamples_on_string.
  destruct (get_key DOCS "factor-examples") as [[|c content]|].
  - eexists. split; [reflexivity | discriminate].
  - destruct (String.eqb factorType "all").
    + eexists. split; [reflexivity | discriminate].
    + destruct (filter _ _) as [|s ss] eqn:E.
      * eexists. split; [reflexivity | discriminate].
      * eexists. split; [reflexivity|].
        apply join_prefixed_not_empty. discriminate.
  - eexists. split; [reflexivity | discriminate].
Qed.



(** X9: apart from the sentinel [all], which is compared as it is written, the
    factor type is used lowercased only: two factor types with the same
    lowercasing, neither of them [all], get the same answer, or both get the
    guidance message, each quoting its own spelling. *)
Theorem getFactorExamples_case_insensitive (DOCS : DocStore) (ft1 ft2 : string) :
  ft1 <> "all" -> ft2 <> "all" ->
  Js.toLowerCase ft1 = Js.toLowerCase ft2 ->
  getFactorExamples DOCS (JsString ft1) = getFactorExamples DOCS (JsString ft2)
  \/ (getFactorExamples DOCS (JsString ft1) = Returns (factor_guidance ft1)
      /\ getFactorExamples DOCS (JsString ft2) = Returns (factor_guidance ft2)).
Proof.
  intros H1 H2 Hlow. rewrite !getFactorExamples_on_string.
  destruct (get_key DOCS "factor-examples") as [[|c content]|];
    [now left | | now left].
  destruct (String.eqb_spec ft1 "all") as [?|_]; [contradiction|].
  destruct (String.eqb_spec ft2 "all") as [?|_]; [contradiction|].
  rewrite Hlow. destruct (filter _ _); [right | left]; now try split.
Qed.

Lemma getFactorExamples_case_insensitive_witness :
  getFactorExamples [("factor-examples", "# Ex" ++ nl ++ "## Value" ++ nl ++ "pe")]
                    (JsString "VALUE")
  = getFactorExamples [("factor-examples", "# Ex" ++ nl ++ "## Value" ++ nl ++ "pe")]
                      (JsString "value").
Proof.
  destruct (getFactorExamples_case_insensitive
              [("factor-examples", "# Ex" ++ nl ++ "## Value" ++ nl ++ "pe")]
              "VALUE" "value") as [H | [H _]].
  - discriminate.
  - discriminate.
  - reflexivity.
  - exact H.
  - discriminate H.
Defined.

(** X10: a [get_factor_examples] call whose [factor_type] is missing, [null],
    [false] or the empty string is answered like the factor type [all]: with
    the whole document, whenever it is present and not empty. *)
Theorem get_factor_examples_default (DOCS : DocStore) (args : Args)
    (content : string) :
  truthy (arg args "factor_type") = false ->
  get_key DOCS "factor-examples" = Some content ->
  content <> "" ->
  handleToolCall DOCS (JsString "get_factor_examples") args
  = Returns (Text content).
Proof.
  intros Hf Hdoc Hne. rewrite handleToolCall_factor.
  rewrite Hf, getFactorExamples_on_string, Hdoc.
  now destruct content.
Qed.

Lemma get_factor_examples_default_witness :
  handleToolCall [("factor-examples", "# Ex" ++ nl ++ "## Value")]
                 (JsString "get_factor_examples") [("factor_type", JsString "")]
  = Returns (Text ("# Ex" ++ nl ++ "## Value")).
Proof.
  apply (get_factor_examples_default
           [("factor-examples", "# Ex" ++ nl ++ "## Value")]
           [("factor_type", JsString "")]).
  - reflexivity.
  - reflexivity.
  - discriminate.
Defined.

(** ** The document list *)

Section Synopsis.

Let LF : ascii := ascii_of_nat 10.

Lemma occurs_LF_includes (s : string) :
  occurs LF s <-> Js.includes s nl = true.
Proof.
  split.
  - induction s as [|c s IH]; [intros []|].
    intros [->|H]; cbn [Js.includes].
    + apply orb_true_iff. left. reflexivity.
    + apply orb_true_iff. right. now apply IH.
  - intros H. apply (includes_occurs _ _ _ H). now left.
Qed.

(** What [strip] leaves is the end of the text, and starts with none of the
    sequences. *)
Lemma strip_suffix (seqs : list string) (s : string) (skip : nat) :
  exists dropped, s = dropped ++ Js.strip seqs s skip.
Proof.
  revert skip; induction s as [|x s IH]; intros skip; [now exists ""|].
  cbn [Js.strip].
  assert (Hdrop : forall k, exists dropped,
            String x s = dropped ++ Js.strip seqs s k).
  { intros k. destruct (IH k) as [dropped H].
    exists (String x dropped). cbn. now rewrite <- H. }
  destruct skip as [|k]; [|apply Hdrop].
  destruct (Js.prefix_length seqs (String x s)); [now exists "" | apply Hdrop].
Qed.

Lemma strip_done (seqs : list string) (s : string) (skip : nat) :
  Js.prefix_length seqs (Js.strip seqs s skip) = 0.
Proof.
  revert skip; induction s as [|x s IH]; intros skip.
  - cbn [Js.strip]. induction seqs as [|q seqs IHq]; [reflexivity|].
    cbn [Js.prefix_length]. destruct q; [reflexivity | exact IHq].
  - cbn [Js.strip]. destruct skip as [|k]; [|apply IH].
    destruct (Js.prefix_length seqs (String x s)) eqn:E; [exact E | apply IH].
Qed.

Lemma prefix_length_found (seqs : list string) (c : ascii) (s : string) :
  ~ In "" seqs ->
  In (String c "") seqs -> Js.prefix_length seqs (String c s) <> 0.
Proof.
  induction seqs as [|q seqs IH]; intros Hne Hin; [destruct Hin|].
  cbn [Js.prefix_length].
  destruct (Js.startsWith q (String c s)) eqn:E.
  - destruct q; [exfalso; apply Hne; now left | discriminate].
  - destruct Hin as [->|Hin].
    + cbn [Js.startsWith] in E. now rewrite Ascii.eqb_refl in E.
    + apply IH; [|exact Hin]. intros H. apply Hne. now right.
Qed.

Lemma white_space_not_empty :
  ~ In "" Js.white_space /\ ~ In "" (map Js.reverse Js.white_space).
Proof. split; vm_compute; intuition discriminate. Qed.

Lemma reverse_append (a b : string) :
  Js.reverse (a ++ b) = Js.reverse b ++ Js.reverse a.
Proof.
  induction a as [|x a IH]; cbn [append Js.reverse].
  - now rewrite append_empty_r.
  - now rewrite IH, append_assoc.
Qed.

Lemma reverse_involutive (s : string) : Js.reverse (Js.reverse s) = s.
Proof.
  induction s as [|x s IH]; [reflexivity|].
  cbn [Js.reverse]. now rewrite reverse_append, IH.
Qed.

Lemma is_space_white (c : ascii) :
  Js.is_space c = true ->
  In (String c "") Js.white_space
  /\ In (String c "") (map Js.reverse Js.white_space).
Proof.
  destruct c as [[] [] [] [] [] [] [] []]; try discriminate; intros _;
    vm_compute; tauto.
Qed.

Lemma trimEnd_prefix (s : string) : exists dropped, s = Js.trimEnd s ++ dropped.
Proof.
  unfold Js.trimEnd.
  destruct (strip_suffix (map Js.reverse Js.white_space) (Js.reverse s) 0)
    as [dropped H].
  exists (Js.reverse dropped).
  rewrite <- reverse_append, <- H. symmetry. apply reverse_involutive.
Qed.

Lemma occurs_trimStart (c : ascii) (s : string) :
  occurs c (Js.trimStart s) -> occurs c s.
Proof.
  unfold Js.trimStart. destruct (strip_suffix Js.white_space s 0) as [dropped H].
  intros Ho. rewrite H. apply occurs_append. now right.
Qed.

Lemma occurs_trimEnd (c : ascii) (s : string) :
  occurs c (Js.trimEnd s) -> occurs c s.
Proof.
  destruct (trimEnd_prefix s) as [dropped H].
  intros Ho. rewrite H. apply occurs_append. now left.
Qed.

Lemma occurs_drop_hashes (c : ascii) (s : string) :
  occurs c (drop_hashes s) -> occurs c s.
Proof.
  induction s as [|x s IH]; [trivial|]. cbn [drop_hashes].
  destruct (Ascii.eqb_spec x "#"%char) as [->|Hx].
  - intros H. right. now apply IH.
  - destruct x as [[] [] [] [] [] [] [] []]; trivial. congruence.
Qed.

Lemma occurs_strip_heading (c : ascii) (s : string) :
  occurs c (strip_heading s) -> occurs c s.
Proof.
  unfold strip_heading. destruct s as [|x s]; [trivial|].
  destruct x as [[] [] [] [] [] [] [] []]; trivial.
  intros H. now apply occurs_drop_hashes, occurs_trimStart.
Qed.

Lemma firstLine_no_LF (content : string) : ~ occurs LF (firstLine content).
Proof.
  unfold firstLine.
  destruct (find nonblank (Js.split content nl)) as [l|] eqn:E; [|intros []].
  apply find_some in E as [Hl _]. intros H.
  apply (split_lines_no_LF _ _ Hl).
  apply occurs_strip_heading, occurs_trimStart, occurs_trimEnd. exact H.
Qed.

Lemma trimStart_first_char (s : string) (c : ascii) :
  first_char (Js.trimStart s) = Some c -> Js.is_space c = false.
Proof.
  unfold Js.trimStart. intros H.
  destruct (Js.is_space c) eqn:E; [exfalso | reflexivity].
  pose proof (strip_done Js.white_space s 0) as Hdone.
  destruct (Js.strip Js.white_space s 0) as [|x rest]; [discriminate|].
  injection H as ->.
  now apply (prefix_length_found _ c rest (proj1 white_space_not_empty)
               (proj1 (is_space_white c E))).
Qed.

Lemma trimEnd_first_char (s : string) (c : ascii) :
  first_char (Js.trimEnd s) = Some c -> first_char s = Some c.
Proof.
  destruct (trimEnd_prefix s) as [dropped H]. intros Hc. rewrite H.
  now destruct (Js.trimEnd s).
Qed.

Lemma last_char_reverse (s : string) : last_char (Js.reverse s) = first_char s.
Proof.
  destruct s as [|x s]; [reflexivity|]. cbn [Js.reverse first_char].
  induction (Js.reverse s) as [|y r IH]; [reflexivity|].
  cbn [append last_char]. destruct (r ++ String x "") eqn:E; [|exact IH].
  destruct r; discriminate.
Qed.

Lemma trimEnd_last_char (s : string) (c : ascii) :
  last_char (Js.trimEnd s) = Some c -> Js.is_space c = false.
Proof.
  unfold Js.trimEnd. rewrite last_char_reverse. intros H.
  destruct (Js.is_space c) eqn:E; [exfalso | reflexivity].
  pose proof (strip_done (map Js.reverse Js.white_space) (Js.reverse s) 0) as Hdone.
  destruct (Js.strip _ (Js.reverse s) 0) as [|x rest]; [discriminate|].
  injection H as ->.
  now apply (prefix_length_found _ c rest (proj2 white_space_not_empty)
               (proj2 (is_space_white c E))).
Qed.

End Synopsis.

(** X11: the synopsis of a document has no newline in it and neither starts
    nor ends with white space; it is empty when every line of the document is
    blank. *)
Theorem firstLine_is_trimmed (content : string) :
  Js.includes (firstLine content) nl = false
  /\ (forall c, first_char (firstLine content) = Some c -> Js.is_space c = false)
  /\ (forall c, last_char (firstLine content) = Some c -> Js.is_space c = false)
  /\ ((forall l, In l (Js.split content nl) -> Js.trim l = "") ->
      firstLine content = "").
Proof.
  repeat split.
  - destruct (Js.includes (firstLine content) nl) eqn:E; [|reflexivity].
    apply occurs_LF_includes in E. now apply firstLine_no_LF in E.
  - intros c. unfold firstLine.
    destruct (find nonblank (Js.split content nl)); [|discriminate].
    unfold Js.trim. intros H. now apply trimEnd_first_char, trimStart_first_char in H.
  - intros c. unfold firstLine.
    destruct (find nonblank (Js.split content nl)); [|discriminate].
    unfold Js.trim. apply trimEnd_last_char.
  - intros Hblank. unfold firstLine.
    destruct (find nonblank (Js.split content nl)) as [l|] eqn:E; [|reflexivity].
    apply find_some in E as [Hl Hnb]. unfold nonblank in Hnb.
    rewrite (Hblank l Hl) in Hnb. discriminate.
Qed.

Lemma firstLine_is_trimmed_witness :
  firstLine ("  " ++ nl ++ "" ++ nl ++ " ") = "".
Proof.
  apply (proj2 (proj2 (proj2 (firstLine_is_trimmed
                                ("  " ++ nl ++ "" ++ nl ++ " "))))).
  intros l [<-|[<-|[<-|[]]]]; reflexivity.
Defined.

(** X12: when no document name contains a newline, the text of
    [listDocuments] is made of the heading line, an empty line, and then one
    line for each document, in the order of the store, with its name and its
    synopsis (a single empty line when the store is empty). *)
Theorem listDocuments_lines (DOCS : DocStore) :
  (forall name, In name (keys DOCS) -> Js.includes name nl = false) ->
  Js.split (listDocuments DOCS) nl
  = "## Available FinLab Documents" :: ""
    :: match DOCS with
       | [] => [""]
       | _ => map bullet DOCS
       end.
Proof.
  intros Hnames. unfold listDocuments.
  replace (map (fun entry : string * string =>
                  let (name, content) := entry in
                  "- **" ++ name ++ "**: " ++ firstLine content) DOCS)
    with (map bullet DOCS) by (apply map_ext; now intros [name content]).
  rewrite split_line_cons by (cbn; intuition discriminate).
  f_equal.
  change (nl ++ Js.join (map bullet DOCS) nl)
    with ("" ++ nl ++ Js.join (map bullet DOCS) nl).
  rewrite split_line_cons by (intros []).
  f_equal.
  destruct DOCS as [|entry DOCS]; [reflexivity|].
  apply split_join_lines; [discriminate|].
  intros l Hl. apply in_map_iff in Hl as [[name content] [<- Hin]].
  unfold bullet. cbn [fst snd]. rewrite !occurs_append.
  intros [H | [H | [H | H]]].
  - cbn in H. intuition discriminate.
  - apply occurs_LF_includes in H.
    rewrite (Hnames name) in H; [discriminate|].
    apply in_map_iff. now exists (name, content).
  - cbn in H. intuition discriminate.
  - now apply firstLine_no_LF in H.
Qed.

Lemma listDocuments_lines_witness :
  Js.split (listDocuments [("intro", "# Intro" ++ nl ++ "text"); ("api", "")]) nl
  = ["## Available FinLab Documents"; ""; "- **intro**: Intro"; "- **api**: "].
Proof.
  apply (listDocuments_lines [("intro", "# Intro" ++ nl ++ "text"); ("api", "")]).
  intros name [<-|[<-|[]]]; reflexivity.
Defined.

(** ** Tools and their dispatch *)

Lemma tool_names (DOCS : DocStore) :
  map tool_name (TOOLS DOCS)
  = ["list_documents"; "get_document"; "search_finlab_docs"; "get_factor_examples"].
Proof. reflexivity. Qed.

Lemma handleToolCall_unknown (DOCS : DocStore) (toolName : string) (args : Args) :
  ~ In toolName (map tool_name (TOOLS DOCS)) ->
  handleToolCall DOCS (JsString toolName) args
  = Returns (Text ("Unknown tool: " ++ toolName)).
Proof.
  rewrite tool_names. intros H. unfold handleToolCall. cbn [strict_eq_string].
  destruct (String.eqb_spec toolName "list_documents");
    [exfalso; apply H; subst; simpl; tauto|].
  destruct (String.eqb_spec toolName "get_document");
    [exfalso; apply H; subst; simpl; tauto|].
  destruct (String.eqb_spec toolName "search_finlab_docs");
    [exfalso; apply H; subst; simpl; tauto|].
  destruct (String.eqb_spec toolName "get_factor_examples");
    [exfalso; apply H; subst; simpl; tauto|].
  reflexivity.
Qed.

(** X13: the tools that [tools/list] advertises are the tools that
    [handleToolCall] serves: a tool name is answered with the unknown-tool text
    on every store and for every argument object exactly when it is not the
    name of a tool descriptor. *)
Theorem advertised_tools_are_served (toolName : string) :
  (forall DOCS args,
     handleToolCall DOCS (JsString toolName) args
     = Returns (Text ("Unknown tool: " ++ toolName)))
  <-> (forall DOCS, ~ In toolName (map tool_name (TOOLS DOCS))).
Proof.
  split.
  - intros H DOCS Hin. specialize (H [] []). rewrite tool_names in Hin.
    destruct Hin as [<-|[<-|[<-|[<-|[]]]]]; vm_compute in H; discriminate.
  - intros H DOCS args. apply handleToolCall_unknown, H.
Qed.

Lemma advertised_tools_are_served_witness :
  handleToolCall [("a", "x")] (JsString "list_docs") [("query", JsString "x")]
  = Returns (Text "Unknown tool: list_docs").
Proof.
  apply (proj2 (advertised_tools_are_served "list_docs")).
  intros DOCS. rewrite tool_names. simpl. intuition discriminate.
Defined.

(** X14: a call of an advertised tool with arguments that fit its input
    schema (every required property is a string, every other declared
    property is a string or is missing) raises no [TypeError].  What it
    returns is a text, except that [get_document] hands back the inherited
    property, which is no text, when [doc_name] is a property name of
    [Object.prototype] and no document. *)
Theorem conforming_tool_calls_return (DOCS : DocStore) (tool : Tool) (args : Args) :
  In tool (TOOLS DOCS) ->
  conforms (inputSchema tool) args = true ->
  exists out,
    handleToolCall DOCS (JsString (tool_name tool)) args = Returns out
    /\ ((exists s, out = Text s)
        \/ (tool_name tool = "get_document"
            /\ exists key,
                 arg args "doc_name" = JsString key
                 /\ out = Inherited key
                 /\ has_key DOCS key = false /\ is_inherited key = true)).
Proof.
  intros Hin Hc.
  assert (Hfacts :
    (tool_name tool = "get_document" ->
       exists key, arg args "doc_name" = JsString key)
    /\ (tool_name tool = "search_finlab_docs" ->
          is_string (arg args "query") = true)
    /\ (tool_name tool = "get_factor_examples" ->
          truthy (arg args "factor_type") = true ->
          is_string (arg args "factor_type") = true)).
  { unfold conforms in Hc.
    destruct Hin as [<-|[<-|[<-|[<-|[]]]]];
      cbn [inputSchema required properties forallb fst snd prop_type tool_name
           String.eqb Ascii.eqb Bool.eqb andb] in Hc;
      (repeat split; try discriminate).
    - intros _. rewrite !andb_true_r in Hc. apply andb_true_iff in Hc as [Hc _].
      destruct (arg args "doc_name"); try discriminate. eauto.
    - intros _. rewrite !andb_true_r in Hc. now apply andb_true_iff in Hc as [Hc _].
    - intros _ Ht. rewrite !andb_true_r in Hc.
      destruct (arg args "factor_type"); try discriminate; reflexivity. }
  destruct Hfacts as [Hget [Hsearch Hfactor]].
  destruct (handleToolCall DOCS (JsString (tool_name tool)) args) as [out|[]] eqn:E.
  - exists out. split; [reflexivity|].
    destruct (handleToolCall_returns _ _ _ _ E) as [Ht | [[= Hn] [key [-> [Hk H]]]]];
      [now left|].
    right. split; [exact Hn|]. exists key.
    destruct (Hget Hn) as [key' Hkey]. rewrite Hkey in Hk. injection Hk as ->.
    now repeat split.
  - exfalso. apply handleToolCall_throws in E.
    destruct E as [[[= Hn] Hq] | [[[= Hn] [Ht [Hs _]]] | [[[= Hn] Hd] | Hd]]].
    + rewrite (Hsearch Hn) in Hq. discriminate.
    + rewrite (Hfactor Hn Ht) in Hs. discriminate.
    + destruct (Hget Hn) as [key Hkey]. rewrite Hkey in Hd. discriminate.
    + discriminate.
Qed.

Lemma conforming_tool_calls_return_witness :
  exists out,
    handleToolCall [("a", "x")] (JsString "get_document")
                   [("doc_name", JsString "valueOf"); ("limit", JsBool true)]
    = Returns out
    /\ ((exists s, out = Text s)
        \/ ("get_document" = "get_document"
            /\ exists key,
                 arg [("doc_name", JsString "valueOf"); ("limit", JsBool true)]
                     "doc_name" = JsString key
                 /\ out = Inherited key
                 /\ has_key [("a", "x")] key = false /\ is_inherited key = true)).
Proof.
  apply (conforming_tool_calls_return [("a", "x")]
           (nth 1 (TOOLS [("a", "x")])
                {| tool_name := ""; tool_description := "";
                   inputSchema := {| schema_type := ""; properties := [];
                                     required := None |} |})
           [("doc_name", JsString "valueOf"); ("limit", JsBool true)]).
  - simpl. tauto.
  - reflexivity.
Defined.

(** X15: the descriptor of [get_document] tells the caller which names there
    are: the description of its [doc_name] property contains the name of
    every document of the store. *)
Theorem get_document_descriptor_lists_names (DOCS : DocStore) (docName : string) :
  In docName (keys DOCS) ->
  exists tool declared,
    In tool (TOOLS DOCS)
    /\ tool_name tool = "get_document"
    /\ In ("doc_name", declared) (properties (inputSchema tool))
    /\ Js.includes (prop_description declared) docName = true.
Proof.
  intros Hin. destruct (join_includes _ ", " _ Hin) as [pre [post Hj]].
  eexists. eexists. split; [right; left; reflexivity|].
  split; [reflexivity|]. split; [left; reflexivity|].
  cbn [prop_description]. apply includes_spec.
  exists ("Name of the document (without .md extension). Available: " ++ pre), post.
  now rewrite Hj, !append_assoc.
Qed.

Lemma get_document_descriptor_lists_names_witness :
  exists tool declared,
    In tool (TOOLS [("intro", "x"); ("api", "y")])
    /\ tool_name tool = "get_document"
    /\ In ("doc_name", declared) (properties (inputSchema tool))
    /\ Js.includes (prop_description declared) "api" = true.
Proof.
  apply (get_document_descriptor_lists_names [("intro", "x"); ("api", "y")] "api").
  simpl. tauto.
Defined.

(** X16: the dispatcher raises an error exactly for a [tools/call] request
    that has no [params] or whose tool call raises one. *)
Theorem dispatcher_throws_only_in_tool_calls (DOCS : DocStore)
    (request : McpRequest) :
  handleMcpRequest DOCS request = Throws TypeError <->
  (method request = "tools/call"
   /\ (params request = None
       \/ exists p,
            params request = Some p
            /\ handleToolCall DOCS (name p)
                 (match arguments p with Some a => a | None => [] end)
               = Throws TypeError)).
Proof.
  - unfold handleMcpRequest.
    destruct (String.eqb_spec (method request) "initialize") as [E1|N1].
    { split; [discriminate | intros [H _]; rewrite E1 in H; discriminate]. }
    destruct (String.eqb_spec (method request) "tools/list") as [E2|N2].
    { split; [discriminate | intros [H _]; rewrite E2 in H; discriminate]. }
    destruct (String.eqb_spec (method request) "tools/call") as [E3|N3].
    2:{ split; [discriminate | intros [H _]; contradiction]. }
    destruct (params request) as [p|].
    + destruct (handleToolCall DOCS (name p) _) as [content|[]] eqn:E; cbn [bind].
      * split; [discriminate|].
        intros [_ [H | [p' [[= <-] H]]]]; [discriminate | congruence].
      * split; [|reflexivity]. intros _. split; [exact E3|].
        right. exists p. now split.
    + split; [|reflexivity]. intros _. split; [exact E3 | now left].
Qed.

Lemma dispatcher_throws_only_in_tool_calls_witness :
  handleMcpRequest [("a", "x")]
    {| req_jsonrpc := "2.0"; req_id := IdNumber 9; method := "tools/call";
       params := None |}
  = Throws TypeError.
Proof.
  apply (proj2 (dispatcher_throws_only_in_tool_calls [("a", "x")]
    {| req_jsonrpc := "2.0"; req_id := IdNumber 9; method := "tools/call";
       params := None |})).
  split; [reflexivity | now left].
Defined.

(** ** Transport *)

Lemma path_cases (path : string) :
  (health_path path
   /\ String.eqb path "/health" || String.eqb path "/" = true)
  \/ (mcp_path path
      /\ String.eqb path "/health" || String.eqb path "/" = false
      /\ String.eqb path "/mcp" || String.eqb path "/sse" = true)
  \/ (~ health_path path /\ ~ mcp_path path
      /\ String.eqb path "/health" || String.eqb path "/" = false
      /\ String.eqb path "/mcp" || String.eqb path "/sse" = false).
Proof.
  unfold health_path, mcp_path.
  destruct (String.eqb_spec path "/health") as [->|H1]; [left; split; [now left | reflexivity]|].
  destruct (String.eqb_spec path "/") as [->|H2]; [left; split; [now right | reflexivity]|].
  destruct (String.eqb_spec path "/mcp") as [->|H3];
    [right; left; repeat split; now left|].
  destruct (String.eqb_spec path "/sse") as [->|H4];
    [right; left; repeat split; now right|].
  right; right. repeat split; tauto.
Qed.

Lemma fetch_mcp_post (DOCS : DocStore) (request : HttpRequest) :
  mcp_path (pathname request) -> http_method request = "POST" ->
  fetch DOCS request =
  match json request with
  | None => parse_error_response
  | Some body =>
      match handleMcpRequest DOCS body with
      | Returns response =>
          {| http_status := 200;
             http_headers := [("Content-Type", "application/json");
                              ("Access-Control-Allow-Origin", "*")];
             http_body := BodyEnvelope response |}
      | Throws _ => parse_error_response
      end
  end.
Proof.
  intros Hp Hm. unfold fetch.
  destruct (path_cases (pathname request))
    as [[Hh _] | [[_ [-> ->]] | [_ [Hn _]]]]; [| |contradiction].
  - exfalso. unfold health_path, mcp_path in *.
    destruct Hh as [E|E]; rewrite E in Hp; destruct Hp; discriminate.
  - now rewrite Hm.
Qed.

(** X17: what [fetch] answers is decided by the path first.  The health paths
    are answered with the health body whatever the method or the body is; the
    status is 405 exactly for an MCP path with a method other than POST, 404
    exactly for any other path with a method other than OPTIONS, and 400
    exactly for a POST to an MCP path whose body is no JSON text or makes the
    dispatcher raise an error; in all other cases it is 200. *)
Theorem fetch_status_table (DOCS : DocStore) (request : HttpRequest) :
  (health_path (pathname request) ->
   fetch DOCS request
   = {| http_status := 200;
        http_headers := [("Content-Type", "application/json")];
        http_body := BodyHealth "ok" "finlab-mcp" |})
  /\ (http_status (fetch DOCS request) = 405 <->
      mcp_path (pathname request) /\ http_method request <> "POST")
  /\ (http_status (fetch DOCS request) = 404 <->
      ~ health_path (pathname request) /\ ~ mcp_path (pathname request)
      /\ http_method request <> "OPTIONS")
  /\ (http_status (fetch DOCS request) = 400 <->
      mcp_path (pathname request) /\ http_method request = "POST"
      /\ (json request = None
          \/ exists body,
               json request = Some body
               /\ handleMcpRequest DOCS body = Throws TypeError))
  /\ (http_status (fetch DOCS request) = 200
      \/ http_status (fetch DOCS request) = 400
      \/ http_status (fetch DOCS request) = 404
      \/ http_status (fetch DOCS request) = 405).
Proof.
  unfold fetch.
  destruct (path_cases (pathname request))
    as [[Hh ->] | [[Hm [-> ->]] | [Hnh [Hnm [-> ->]]]]].
  - assert (Hnm : ~ mcp_path (pathname request)).
    { unfold health_path, mcp_path in *.
      intros [E|E]; rewrite E in Hh; destruct Hh; discriminate. }
    cbn. repeat split; try discriminate; try tauto.
  - assert (Hnh : ~ health_path (pathname request)).
    { unfold health_path, mcp_path in *.
      intros [E|E]; rewrite E in Hm; destruct Hm; discriminate. }
    destruct (String.eqb_spec (http_method request) "POST") as [Hp|Hp]; cbn [negb].
    + destruct (json request) as [body|].
      * destruct (handleMcpRequest DOCS body) as [response|[]] eqn:E; cbn.
        -- repeat split; try discriminate; try tauto.
           intros [_ [_ [H | [b [[= <-] H]]]]]; [discriminate | congruence].
        -- repeat split; try discriminate; try tauto.
           right. exists body. now split.
      * cbn. repeat split; try discriminate; try tauto.
    + cbn. repeat split; try discriminate; try tauto.
  - destruct (String.eqb_spec (http_method request) "OPTIONS") as [Ho|Ho]; cbn;
      repeat split; try discriminate; try tauto.
Qed.

Lemma fetch_status_table_witness :
  http_status (fetch [("a", "x")]
                 {| pathname := "/docs"; http_method := "GET"; json := None |})
  = 404.
Proof.
  apply (proj2 (proj1 (proj2 (proj2 (fetch_status_table [("a", "x")]
           {| pathname := "/docs"; http_method := "GET"; json := None |}))))).
  unfold health_path, mcp_path. cbn. intuition discriminate.
Defined.

(** X18: a POST to an MCP path whose body is a request envelope is answered
    either with status 200, the JSON and CORS headers and the envelope of the
    dispatcher, which carries the identifier of the request and exactly one
    of result and error; or, when the dispatcher raises an error (which only
    a [tools/call] can cause), with status 400 and the parse-error envelope
    (code -32700, a null identifier), without the CORS header. *)
Theorem fetch_mcp_post_answer (DOCS : DocStore) (request : HttpRequest)
    (body : McpRequest) :
  mcp_path (pathname request) ->
  http_method request = "POST" ->
  json request = Some body ->
  (exists response,
     handleMcpRequest DOCS body = Returns response
     /\ fetch DOCS request
        = {| http_status := 200;
             http_headers := [("Content-Type", "application/json");
                              ("Access-Control-Allow-Origin", "*")];
             http_body := BodyEnvelope response |}
     /\ id response = req_id body
     /\ result_xor_error response)
  \/ (handleMcpRequest DOCS body = Throws TypeError
      /\ method body = "tools/call"
      /\ fetch DOCS request
         = {| http_status := 400;
              http_headers := [("Content-Type", "application/json")];
              http_body :=
                BodyErrorNullId "2.0"
                  {| code := (-32700)%Z; message := "Parse error" |} |}).
Proof.
  intros Hp Hm Hj. rewrite (fetch_mcp_post DOCS request Hp Hm), Hj.
  destruct (handleMcpRequest DOCS body) as [response|[]] eqn:E.
  - left. exists response. repeat split.
    + destruct (known_method_dec (method body)) as [Hk|Hu].
      * now apply (handleMcpRequest_known DOCS body response Hk).
      * rewrite (handleMcpRequest_unknown DOCS body Hu) in E. now injection E as <-.
    + destruct (known_method_dec (method body)) as [Hk|Hu].
      * left. now apply (handleMcpRequest_known DOCS body response Hk).
      * rewrite (handleMcpRequest_unknown DOCS body Hu) in E.
        injection E as <-. right. split; [reflexivity | discriminate].
  - right. repeat split.
    destruct (known_method_dec (method body)) as [[H|[H|H]]|Hu].
    + unfold handleMcpRequest in E. rewrite H in E. discriminate.
    + unfold handleMcpRequest in E. rewrite H in E. discriminate.
    + exact H.
    + rewrite (handleMcpRequest_unknown DOCS body Hu) in E. discriminate.
Qed.

Lemma fetch_mcp_post_answer_witness :
  fetch [("a", "x")]
    {| pathname := "/mcp"; http_method := "POST";
       json := Some (tool_call (IdNumber 5) (JsString "search_finlab_docs") None) |}
  = parse_error_response.
Proof.
  destruct (fetch_mcp_post_answer [("a", "x")]
    {| pathname := "/mcp"; http_method := "POST";
       json := Some (tool_call (IdNumber 5) (JsString "search_finlab_docs") None) |}
    (tool_call (IdNumber 5) (JsString "search_finlab_docs") None)
    (or_introl eq_refl) eq_refl eq_refl) as [[response [H _]] | [_ [_ H]]].
  - discriminate H.
  - exact H.
Defined.

(** X19: the CORS preflight answer (no body, the three
    [Access-Control-Allow-*] headers) is given exactly to OPTIONS requests for
    paths other than the health and MCP paths; an OPTIONS request for an MCP
    path is refused with status 405 and a plain text body, whose content type
    is the only header: no [Access-Control-Allow-*] header is sent. *)
Theorem fetch_preflight (DOCS : DocStore) (request : HttpRequest) :
  (http_body (fetch DOCS request) = BodyNull <->
   ~ health_path (pathname request) /\ ~ mcp_path (pathname request)
   /\ http_method request = "OPTIONS")
  /\ (mcp_path (pathname request) -> http_method request = "OPTIONS" ->
      fetch DOCS request
      = {| http_status := 405;
           http_headers := [("content-type", "text/plain;charset=UTF-8")];
           http_body := BodyText "Method not allowed" |})
  /\ (http_body (fetch DOCS request) = BodyNull ->
      fetch DOCS request
      = {| http_status := 200;
           http_headers := [("Access-Control-Allow-Origin", "*");
                            ("Access-Control-Allow-Methods", "GET, POST, OPTIONS");
                            ("Access-Control-Allow-Headers", "Content-Type")];
           http_body := BodyNull |}).
Proof.
  unfold fetch.
  destruct (path_cases (pathname request))
    as [[Hh ->] | [[Hm [-> ->]] | [Hnh [Hnm [-> ->]]]]].
  - assert (Hnm : ~ mcp_path (pathname request)).
    { unfold health_path, mcp_path in *.
      intros [E|E]; rewrite E in Hh; destruct Hh; discriminate. }
    cbn. repeat split; try discriminate; tauto.
  - destruct (String.eqb_spec (http_method request) "POST") as [Hp|Hp]; cbn [negb].
    + destruct (json request) as [body|];
        [destruct (handleMcpRequest DOCS body) as [response|[]]|];
        cbn; repeat split; try discriminate; try tauto;
        intros _ Ho; rewrite Ho in Hp; discriminate.
    + cbn. repeat split; try discriminate; tauto.
  - destruct (String.eqb_spec (http_method request) "OPTIONS") as [Ho|Ho]; cbn;
      repeat split; try discriminate; try tauto.
Qed.

Lemma fetch_preflight_witness :
  fetch [("a", "x")] {| pathname := "/sse"; http_method := "OPTIONS"; json := None |}
  = {| http_status := 405;
       http_headers := [("content-type", "text/plain;charset=UTF-8")];
       http_body := BodyText "Method not allowed" |}.
Proof.
  apply (proj1 (proj2 (fetch_preflight [("a", "x")]
           {| pathname := "/sse"; http_method := "OPTIONS"; json := None |}))).
  - now right.
  - reflexivity.
Defined.

(** ** Operations together *)

(** X20: the envelope of a [tools/call] holds what the tool call returned and
    nothing else: whenever the dispatcher answers such a request, [params] was
    present, the tool call returned a value (a text, or the inherited
    property that [get_document] can hand back), and the result is the list
    with that value as the [text] of its only item, tagged [text]. *)
Theorem tool_call_envelope_holds_the_text (DOCS : DocStore) (request : McpRequest)
    (response : McpResponse) :
  method request = "tools/call" ->
  handleMcpRequest DOCS request = Returns response ->
  exists p content,
    params request = Some p
    /\ handleToolCall DOCS (name p)
         (match arguments p with Some a => a | None => [] end)
       = Returns content
    /\ response
       = {| jsonrpc := "2.0";
            id := req_id request;
            result := Some (ToolCallResult
                              [ {| content_type := "text"; text := content |} ]);
            error := None |}.
Proof.
  intros Hm. unfold handleMcpRequest. rewrite Hm.
  cbn [String.eqb Ascii.eqb Bool.eqb].
  destruct (params request) as [p|]; [|discriminate].
  destruct (handleToolCall DOCS (name p) _) as [content|e] eqn:E; [|discriminate].
  intros [= <-]. now exists p, content.
Qed.

Lemma tool_call_envelope_holds_the_text_witness :
  exists p content,
    params (tool_call (IdString "q") (JsString "get_document") None) = Some p
    /\ handleToolCall [("a", "x")] (name p)
         (match arguments p with Some a => a | None => [] end)
       = Returns content
    /\ text_envelope (IdString "q")
         ("Document 'undefined' not found." ++ nl ++ nl ++ "Available documents: a")
       = {| jsonrpc := "2.0";
            id := req_id (tool_call (IdString "q") (JsString "get_document") None);
            result := Some (ToolCallResult
                              [ {| content_type := "text"; text := content |} ]);
            error := None |}.
Proof.
  apply (tool_call_envelope_holds_the_text [("a", "x")]
           (tool_call (IdString "q") (JsString "get_document") None)).
  - reflexivity.
  - reflexivity.
Defined.

Section Excerpts.

Let LF : ascii := ascii_of_nat 10.

(** Joining the lines of a text gives the text back. *)
Lemma join_split_lines (s : string) : Js.join (Js.split s nl) nl = s.
Proof.
  unfold Js.join, Js.split, nl, Js.newline. fold LF.
  induction s as [|c s IH]; [reflexivity|].
  cbn [Js.split_from Js.startsWith String.length Nat.sub].
  destruct (Ascii.eqb_spec LF c) as [<-|Hc].
  - destruct (Js.split_from (String LF "") s 0) as [|piece rest] eqn:E.
    + now apply split_from_nonempty in E.
    + change (String.concat (String LF "") ("" :: piece :: rest))
        with (String LF (String.concat (String LF "") (piece :: rest))).
      now rewrite IH.
  - destruct (Js.split_from (String LF "") s 0) as [|piece rest] eqn:E.
    + now apply split_from_nonempty in E.
    + rewrite <- IH. now destruct rest.
Qed.

Lemma join_prefix (mid post : list string) (sep : string) :
  exists b, Js.join (mid ++ post)%list sep = Js.join mid sep ++ b.
Proof.
  unfold Js.join. induction mid as [|x mid IH].
  - now exists (String.concat sep post).
  - destruct mid as [|y mid].
    + destruct post as [|z post].
      * exists "". now rewrite append_empty_r.
      * now exists (sep ++ String.concat sep (z :: post)).
    + destruct IH as [b IH]. exists b.
      change (String.concat sep ((x :: y :: mid) ++ post)%list)
        with (x ++ sep ++ String.concat sep ((y :: mid) ++ post)%list).
      change (String.concat sep (x :: y :: mid))
        with (x ++ sep ++ String.concat sep (y :: mid)).
      now rewrite IH, !append_assoc.
Qed.

Lemma join_middle (pre mid post : list string) (sep : string) :
  exists a b, Js.join (pre ++ mid ++ post)%list sep = a ++ Js.join mid sep ++ b.
Proof.
  induction pre as [|x pre IH].
  - destruct (join_prefix mid post sep) as [b H]. now exists "", b.
  - destruct IH as [a [b IH]]. unfold Js.join in *.
    change (String.concat sep ((x :: pre) ++ mid ++ post)%list)
      with (String.concat sep (x :: (pre ++ mid ++ post))%list).
    destruct (pre ++ mid ++ post)%list as [|y rest].
    + exists (x ++ a), b. rewrite append_assoc, <- IH. cbn.
      now rewrite append_empty_r.
    + exists (x ++ sep ++ a), b.
      change (String.concat sep (x :: y :: rest))
        with (x ++ sep ++ String.concat sep (y :: rest)).
      now rewrite IH, !append_assoc.
Qed.

Lemma window_is_excerpt (content : string) (i : nat) :
  Js.includes content
    (Js.join (context_window (Js.split content nl) i) nl) = true.
Proof.
  apply includes_spec. unfold context_window, Js.slice.
  set (lines := Js.split content nl).
  set (a := Nat.max 0 (i - 2)).
  set (k := Nat.min (List.length lines) (i + 6) - a).
  destruct (join_middle (firstn a lines) (firstn k (skipn a lines))
              (skipn k (skipn a lines)) nl) as [pre [post H]].
  exists pre, post. rewrite <- H, !firstn_skipn.
  symmetry. apply join_split_lines.
Qed.

End Excerpts.

(** X21: the context text of a hit is an excerpt of its document: in a store
    with distinct names, [getDocument] under the document name of the hit
    returns a text that contains the context text of the hit as it is. *)
Theorem search_hit_is_excerpt_of_document (DOCS : DocStore) (query : string)
    (hits : list SearchResult) (hit : SearchResult) :
  NoDup (keys DOCS) ->
  searchHits DOCS (JsString query) = Returns hits ->
  In hit hits ->
  exists content,
    getDocument DOCS (JsString (file hit)) = Returns (Text content)
    /\ Js.includes content (matched hit) = true.
Proof.
  intros Hnd [= <-] Hin.
  apply collect_In in Hin as [name [content [i [l [Hdoc [_ [_ ->]]]]]]].
  cbn [hit_at file matched]. exists content. split.
  - now apply getDocument_own.
  - apply window_is_excerpt.
Qed.

Lemma search_hit_is_excerpt_of_document_witness :
  exists content,
    getDocument [("doc", "a0" ++ nl ++ "Needle" ++ nl ++ "a2")] (JsString "doc")
    = Returns (Text content)
    /\ Js.includes content ("a0" ++ nl ++ "Needle" ++ nl ++ "a2") = true.
Proof.
  apply (search_hit_is_excerpt_of_document
           [("doc", "a0" ++ nl ++ "Needle" ++ nl ++ "a2")] "needle"
           [ {| file := "doc"; line := 2;
                matched := "a0" ++ nl ++ "Needle" ++ nl ++ "a2" |} ]
           {| file := "doc"; line := 2;
              matched := "a0" ++ nl ++ "Needle" ++ nl ++ "a2" |}).
  - repeat constructor. simpl. tauto.
  - reflexivity.
  - now left.
Defined.
